(** * The yt-dlp bridge server (musicApp/PythonServer/server.py)

    A shallow embedding of the request handler [YTDLPHandler]: the query
    parsing it relies on, its four GET routes, the CORS preflight handler,
    the metadata projection and the two-attempt download, followed by the
    properties of the routes and of the download orchestration.

    Python [str] values are Rocq strings, one character per code point
    below 256 (the request line is decoded as ISO-8859-1, so every request
    target is such a string).  Byte strings are [list byte]. *)

From Stdlib Require Import ZArith NArith Strings.Ascii Strings.String Strings.Byte.
From stdpp Require Import base option list strings pretty gmap.

#[local] Set Warnings "-register-all".
Local Open Scope Z_scope.

(** ** Strings, the way the code uses them *)

Module Str.

(** The double quote character (code 34). *)
Definition dquote : ascii := "034"%char.

Definition code (c : ascii) : N := N_of_ascii c.

Definition startswith (p s : string) : bool := String.prefix p s.

Fixpoint endswith_char (c : ascii) (s : string) : bool :=
  match s with
  | EmptyString => false
  | String a EmptyString => Ascii.eqb a c
  | String _ s' => endswith_char c s'
  end.

(** [c in s] for a one-character [c]. *)
Fixpoint contains (c : ascii) (s : string) : bool :=
  match s with
  | EmptyString => false
  | String a s' => Ascii.eqb a c || contains c s'
  end.

(** [s.split(c, 1)] / [s.partition(c)]: the text before and after the
    first [c], or [None] when [c] does not occur. *)
Fixpoint partition (c : ascii) (s : string) : option (string * string) :=
  match s with
  | EmptyString => None
  | String a s' =>
      if Ascii.eqb a c then Some (EmptyString, s')
      else match partition c s' with
           | Some (l, r) => Some (String a l, r)
           | None => None
           end
  end.

(** [s.split(c)] for a one-character separator: never an empty list. *)
Fixpoint split (c : ascii) (s : string) : list string :=
  match s with
  | EmptyString => [EmptyString]
  | String a s' =>
      if Ascii.eqb a c then EmptyString :: split c s'
      else match split c s' with
           | w :: ws => String a w :: ws
           | [] => [String a EmptyString]
           end
  end.

(** [s.replace(a, b)] for one-character [a] and [b]. *)
Fixpoint replace_char (a b : ascii) (s : string) : string :=
  match s with
  | EmptyString => EmptyString
  | String x s' => String (if Ascii.eqb x a then b else x) (replace_char a b s')
  end.

(** [s.replace(a, "")]. *)
Fixpoint remove_char (a : ascii) (s : string) : string :=
  match s with
  | EmptyString => EmptyString
  | String x s' => if Ascii.eqb x a then remove_char a s' else String x (remove_char a s')
  end.

Fixpoint lstrip (drop : ascii -> bool) (s : string) : string :=
  match s with
  | EmptyString => EmptyString
  | String x s' => if drop x then lstrip drop s' else s
  end.

Fixpoint forallb (p : ascii -> bool) (s : string) : bool :=
  match s with
  | EmptyString => true
  | String x s' => p x && forallb p s'
  end.

Fixpoint map (f : ascii -> ascii) (s : string) : string :=
  match s with
  | EmptyString => EmptyString
  | String x s' => String (f x) (map f s')
  end.

(** Python truthiness of a string: [bool(s)]. *)
Definition nonempty (s : string) : bool :=
  match s with EmptyString => false | _ => true end.

(** The part of [s] after the last [c] (all of [s] when there is none),
    together with the part up to and including that [c]. *)
Fixpoint rsplit_last (c : ascii) (s : string) : string * string :=
  match s with
  | EmptyString => (EmptyString, EmptyString)
  | String a s' =>
      let (h, t) := rsplit_last c s' in
      if contains c s' then (String a h, t)
      else if Ascii.eqb a c then (String a EmptyString, s')
      else (EmptyString, s)
  end.

End Str.

(** ** Python values and [json.dumps] *)

(** The JSON-serialisable values.  A dict keeps its insertion order, which
    is the order [json.dumps] writes it in.  A float is identified by the
    text [json.dumps] emits for it. *)
Inductive pyval : Type :=
  | PNone
  | PBool (b : bool)
  | PInt (z : Z)
  | PFloat (repr : string)
  | PStr (s : string)
  | PList (items : list pyval)
  | PDict (items : list (string * pyval)).

Module Json.

Definition hex_digit (n : N) : ascii :=
  match n with
  | 0 => "0" | 1 => "1" | 2 => "2" | 3 => "3" | 4 => "4" | 5 => "5"
  | 6 => "6" | 7 => "7" | 8 => "8" | 9 => "9" | 10 => "a" | 11 => "b"
  | 12 => "c" | 13 => "d" | 14 => "e" | _ => "f"
  end%N%char.

(** ['\\u{0:04x}'.format(n)]. *)
Definition u4 (n : N) : string :=
  String "\" (String "u"
    (String (hex_digit (n / 4096 mod 16)) (String (hex_digit (n / 256 mod 16))
      (String (hex_digit (n / 16 mod 16)) (String (hex_digit (n mod 16))
        EmptyString))))).

(** The [\u] escape of a code point: four hex digits, and a surrogate
    pair from 0x10000 on.  The strings of this file only ever call it
    below 256. *)
Definition u_escape (n : N) : string :=
  if (n <? 65536)%N then u4 n
  else
    let n := (n - 65536)%N in
    u4 (N.lor 55296 (N.land (N.shiftr n 10) 1023))
    +:+ u4 (N.lor 56320 (N.land n 1023)).

(** One character of [py_encode_basestring_ascii]: the short escapes of
    [ESCAPE_DCT], [\u00XX] for everything else outside [' '..'~']. *)
Definition escape_char (c : ascii) : string :=
  let n := Str.code c in
  if (n =? 34)%N then String "\" (String Str.dquote EmptyString)
  else if (n =? 92)%N then "\\"
  else if (n =? 10)%N then "\n"
  else if (n =? 13)%N then "\r"
  else if (n =? 9)%N then "\t"
  else if (n =? 12)%N then "\f"
  else if (n =? 8)%N then "\b"
  else if ((n <? 32) || (126 <? n))%N then u_escape n
  else String c EmptyString.

Fixpoint escape (s : string) : string :=
  match s with
  | EmptyString => EmptyString
  | String c s' => escape_char c +:+ escape s'
  end.

Definition encode_basestring_ascii (s : string) : string :=
  String Str.dquote (escape s +:+ String Str.dquote EmptyString).

(** [json.dumps(v)] with the default separators [', '] and [': ']. *)
Fixpoint dumps (v : pyval) : string :=
  match v with
  | PNone => "null"
  | PBool true => "true"
  | PBool false => "false"
  | PInt z => pretty z
  | PFloat r => r
  | PStr s => encode_basestring_ascii s
  | PList l =>
      "[" +:+ (fix items (l : list pyval) : string :=
                match l with
                | [] => ""
                | [x] => dumps x
                | x :: l' => dumps x +:+ ", " +:+ items l'
                end) l +:+ "]"
  | PDict d =>
      "{" +:+ (fix items (d : list (string * pyval)) : string :=
                match d with
                | [] => ""
                | [(k, x)] => encode_basestring_ascii k +:+ ": " +:+ dumps x
                | (k, x) :: d' =>
                    encode_basestring_ascii k +:+ ": " +:+ dumps x +:+ ", " +:+ items d'
                end) d +:+ "}"
  end.

(** [json.dumps(v).encode()]: the text is ASCII, so it is its own
    UTF-8 encoding. *)
Definition dumps_bytes (v : pyval) : list byte :=
  list_byte_of_string (dumps v).

End Json.

(** ** Exceptions, the filesystem and the outside world *)

(** An exception instance: its class name and [str(e)]. *)
Record exn : Type := Exn { exn_class : string; exn_str : string }.

Inductive result (A : Type) : Type :=
  | Ok (a : A)
  | Raise (e : exn).
Arguments Ok {A} a.
Arguments Raise {A} e.

(** A filesystem entry: a regular file with its contents and whether the
    server process may read it, or a directory with the names
    [os.listdir] returns for it, in the order it returns them. *)
Inductive node : Type :=
  | File (data : list byte) (readable : bool)
  | Dir (entries : list string).

Inductive fs_op : Type :=
  | OpExists | OpIsfile | OpGetsize | OpListdir | OpOpen | OpMkdir.

(** What the server does that is visible outside the handler, in order. *)
Inductive event : Type :=
  | EvPrint (line : string)
  | EvTraceback (e : exn)
  | EvEngine (opts : pyval) (url : string) (download : bool)
  | EvFs (op : fs_op) (path : string).

(** The handler's output: header blocks as [end_headers] flushes them and
    the payloads of [wfile.write].  The [Server] and [Date] lines the base
    class adds to every header block are left out. *)
Inductive hline : Type :=
  | StatusLine (code : Z)
  | HeaderLine (keyword value : string).

Inductive chunk : Type :=
  | HeaderBlock (lines : list hline)
  | Body (data : list byte).

(** The parts of the Python runtime the handler calls and this file does
    not define: they are parameters of the development. *)
Class PyRuntime : Type := {
  (** [urllib.parse.unquote] on a string that contains a percent sign. *)
  unquote_escapes : string -> string;
  (** [_check_bracketed_netloc]: the [ValueError] text, if it raises. *)
  check_bracketed_netloc : string -> option string;
  (** [_checknetloc] on a netloc with a non-ASCII character. *)
  checknetloc_nfkc : string -> option string;
  (** [tempfile.gettempdir()], an absolute path. *)
  gettempdir : string;
  (** [st_size] of a directory. *)
  dir_st_size : Z;
  (** [repr] of a [str]. *)
  repr_str : string -> string;
  (** The HTML page [send_error] renders for a code and a message. *)
  error_page : Z -> string -> list byte;
}.

(** The external media-extraction engine, [yt_dlp.YoutubeDL(opts)
    .extract_info(url, download)]: it may read and change its own state
    (the network, its caches) and the filesystem, and returns the info
    dict or raises. *)
Class YoutubeDL (X : Type) : Type :=
  extract_info : pyval -> string -> bool -> X -> gmap string node ->
                 result (gmap string pyval) * X * gmap string node.

Record World (X : Type) : Type := mkWorld {
  fs : gmap string node;
  ext : X;
  (** the names [tempfile]'s random sequence will yield *)
  tmp_names : list string;
  trace : list event;
  headers_buffer : list hline;
  wfile : list chunk;
}.
Arguments mkWorld {X}.
Arguments fs {X}.
Arguments ext {X}.
Arguments tmp_names {X}.
Arguments trace {X}.
Arguments headers_buffer {X}.
Arguments wfile {X}.

(** The handler object after [parse_request].  [request_version] is
    ["HTTP/0.9"] for a request line without a version ([GET /health]) or
    with that version, and the version of the request line otherwise. *)
Record Request : Type := {
  command : string;
  path : string;
  requestline : string;
  request_version : string;
}.

(** ** State and exceptions *)

Definition M (X A : Type) : Type := World X -> result A * World X.

Definition ret {X A} (a : A) : M X A := fun w => (Ok a, w).

Definition bind {X A B} (m : M X A) (k : A -> M X B) : M X B :=
  fun w => match m w with
           | (Ok a, w') => k a w'
           | (Raise e, w') => (Raise e, w')
           end.

Definition raise {X A} (e : exn) : M X A := fun w => (Raise e, w).

(** [try: body / except Exception as e: handler(e)]. *)
Definition try_except {X A} (body : M X A) (handler : exn -> M X A) : M X A :=
  fun w => match body w with
           | (Ok a, w') => (Ok a, w')
           | (Raise e, w') => handler e w'
           end.

Declare Scope py_scope.
Delimit Scope py_scope with py.
Notation "x <- m ;; k" := (bind m (fun x => k))
  (at level 100, m at next level, right associativity) : py_scope.
Notation "m ;;; k" := (bind m (fun _ => k))
  (at level 100, right associativity) : py_scope.
Local Open Scope py_scope.

Definition emit {X} (e : event) : M X unit :=
  fun w => (Ok tt, mkWorld (fs w) (ext w) (tmp_names w) (trace w ++ [e])
                           (headers_buffer w) (wfile w)).

Definition print {X} (line : string) : M X unit := emit (EvPrint line).

Definition get_fs {X} : M X (gmap string node) := fun w => (Ok (fs w), w).

(** ** [os] and [tempfile] *)

Module os.

(** [os.stat]: the empty path names nothing. *)
Definition stat (f : gmap string node) (p : string) : option node :=
  if Str.nonempty p then f !! p else None.

(** [str] of an [OSError(errno, strerror, filename)], for a filename
    [repr] prints between single quotes as it is. *)
Definition oserror (cls : string) (errno : Z) (strerror filename : string) : exn :=
  Exn cls ("[Errno " +:+ pretty errno +:+ "] " +:+ strerror +:+ ": '" +:+ filename +:+ "'").

Definition enoent (p : string) : exn :=
  oserror "FileNotFoundError" 2 "No such file or directory" p.

(** [os.path.join(a, b)] of [posixpath]. *)
Definition path_join (a b : string) : string :=
  if Str.startswith "/" b then b
  else if negb (Str.nonempty a) || Str.endswith_char "/" a then a +:+ b
  else a +:+ "/" +:+ b.

Definition path_exists {X} (p : string) : M X bool :=
  emit (EvFs OpExists p) ;;;
  f <- get_fs ;;
  ret (match stat f p with Some _ => true | None => false end).

Definition path_isfile {X} (p : string) : M X bool :=
  emit (EvFs OpIsfile p) ;;;
  f <- get_fs ;;
  ret (match stat f p with Some (File _ _) => true | _ => false end).

Definition path_getsize {X} `{PyRuntime} (p : string) : M X Z :=
  emit (EvFs OpGetsize p) ;;;
  f <- get_fs ;;
  match stat f p with
  | Some (File data _) => ret (Z.of_nat (length data))
  | Some (Dir _) => ret dir_st_size
  | None => raise (enoent p)
  end.

Definition listdir {X} (p : string) : M X (list string) :=
  emit (EvFs OpListdir p) ;;;
  f <- get_fs ;;
  match stat f p with
  | Some (Dir entries) => ret entries
  | Some (File _ _) => raise (oserror "NotADirectoryError" 20 "Not a directory" p)
  | None => raise (enoent p)
  end.

(** [with open(p, 'rb') as f: data = f.read()]. *)
Definition read_binary {X} (p : string) : M X (list byte) :=
  emit (EvFs OpOpen p) ;;;
  f <- get_fs ;;
  match stat f p with
  | Some (File data true) => ret data
  | Some (File _ false) => raise (oserror "PermissionError" 13 "Permission denied" p)
  | Some (Dir _) => raise (oserror "IsADirectoryError" 21 "Is a directory" p)
  | None => raise (enoent p)
  end.

Definition add_entry (name : string) (n : node) : node :=
  match n with
  | Dir entries => Dir (entries ++ [name])
  | File _ _ => n
  end.

End os.

Module tempfile.

(** The loop of [tempfile.mkdtemp]: try the candidate names in turn,
    skipping those [os.mkdir] refuses with [FileExistsError]. *)
Fixpoint mkdtemp_loop (dir prefix : string) (names : list string)
    (f : gmap string node) (tr : list event)
    : result string * list string * gmap string node * list event :=
  match names with
  | [] => (Raise (Exn "FileExistsError"
                      "[Errno 17] No usable temporary directory name found"),
           [], f, tr)
  | name :: names' =>
      let file := os.path_join dir (prefix +:+ name) in
      let tr' := tr ++ [EvFs OpMkdir file] in
      match os.stat f dir with
      | Some (Dir _) =>
          match os.stat f file with
          | Some _ => mkdtemp_loop dir prefix names' f tr'
          | None =>
              (Ok file, names',
               <[file := Dir []]> (alter (os.add_entry (prefix +:+ name)) dir f), tr')
          end
      | Some (File _ _) =>
          (Raise (os.oserror "NotADirectoryError" 20 "Not a directory" file), names', f, tr')
      | None => (Raise (os.enoent file), names', f, tr')
      end
  end.

Definition mkdtemp {X} `{PyRuntime} (prefix : string) : M X string :=
  fun w =>
    match mkdtemp_loop gettempdir prefix (tmp_names w) (fs w) (trace w) with
    | (r, names', f', tr') =>
        (r, mkWorld f' (ext w) names' tr' (headers_buffer w) (wfile w))
    end.

End tempfile.

(** ** [urllib.parse] *)

Module urllib.

Record ParseResult : Type := {
  scheme : string;
  netloc : string;
  path : string;
  params : string;
  query : string;
  fragment : string;
}.

Definition is_c0_or_space (c : ascii) : bool := (Str.code c <=? 32)%N.

Definition is_ascii_alpha (c : ascii) : bool :=
  let n := Str.code c in
  ((65 <=? n) && (n <=? 90) || (97 <=? n) && (n <=? 122))%N.

Definition is_scheme_char (c : ascii) : bool :=
  let n := Str.code c in
  (is_ascii_alpha c || (48 <=? n) && (n <=? 57)
   || (n =? 43) || (n =? 45) || (n =? 46))%N.

Definition lower (c : ascii) : ascii :=
  let n := Str.code c in
  if ((65 <=? n) && (n <=? 90))%N then ascii_of_N (n + 32) else c.

Definition uses_params : list string :=
  [""; "ftp"; "hdl"; "prospero"; "http"; "imap"; "https"; "shttp"; "rtsp";
   "rtspu"; "sip"; "sips"; "mms"; "sftp"; "tel"].

Definition value_error (msg : string) : exn := Exn "ValueError" msg.

(** The scheme test of [urlsplit]: text before the first colon that
    starts with an ASCII letter and consists of scheme characters. *)
Definition split_scheme (url : string) : string * string :=
  match Str.partition ":" url with
  | Some (String c pre, rest) =>
      if is_ascii_alpha c && Str.forallb is_scheme_char (String c pre)
      then (Str.map lower (String c pre), rest)
      else ("", url)
  | _ => ("", url)
  end.

Definition is_netloc_delim (c : ascii) : bool :=
  Ascii.eqb c "/" || Ascii.eqb c "?" || Ascii.eqb c "#".

(** [_splitnetloc(url, 2)] on the text after the two slashes. *)
Fixpoint splitnetloc (s : string) : string * string :=
  match s with
  | EmptyString => ("", "")
  | String c s' =>
      if is_netloc_delim c then ("", s)
      else let (n, r) := splitnetloc s' in (String c n, r)
  end.

Definition isascii (s : string) : bool :=
  Str.forallb (fun c => (Str.code c <? 128)%N) s.

Definition check_netloc_brackets `{PyRuntime} (nl : string) : option string :=
  let o := Str.contains "[" nl in
  let c := Str.contains "]" nl in
  if (o && negb c) || (c && negb o) then Some "Invalid IPv6 URL"
  else if o && c then check_bracketed_netloc nl
  else None.

Definition checknetloc `{PyRuntime} (nl : string) : option string :=
  if negb (Str.nonempty nl) || isascii nl then None else checknetloc_nfkc nl.

(** [urlsplit(url)]: scheme, netloc, path, query, fragment. *)
Definition urlsplit `{PyRuntime} (url : string)
    : result (string * string * string * string * string) :=
  let url := Str.lstrip is_c0_or_space url in
  let url := Str.remove_char "013" (Str.remove_char "010" (Str.remove_char "009" url)) in
  let (sch, url) := split_scheme url in
  let '(nl, url, bad) :=
    match url with
    | String "/" (String "/" rest) =>
        let (nl, url') := splitnetloc rest in (nl, url', check_netloc_brackets nl)
    | _ => ("", url, None)
    end in
  match bad with
  | Some msg => Raise (value_error msg)
  | None =>
      let (url, frag) :=
        match Str.partition "#" url with Some (u, f) => (u, f) | None => (url, "") end in
      let (url, qry) :=
        match Str.partition "?" url with Some (u, q) => (u, q) | None => (url, "") end in
      match checknetloc nl with
      | Some msg => Raise (value_error msg)
      | None => Ok (sch, nl, url, qry, frag)
      end
  end.

Definition splitparams (url : string) : string * string :=
  let (h, t) := Str.rsplit_last "/" url in
  match Str.partition ";" t with
  | Some (b, a) => (h +:+ b, a)
  | None => (url, "")
  end.

Definition urlparse `{PyRuntime} (url : string) : result ParseResult :=
  match urlsplit url with
  | Raise e => Raise e
  | Ok (sch, nl, url, qry, frag) =>
      let (url, prm) :=
        if bool_decide (sch ∈ uses_params) && Str.contains ";" url
        then splitparams url else (url, "") in
      Ok {| scheme := sch; netloc := nl; path := url; params := prm;
            query := qry; fragment := frag |}
  end.

(** [urlparse(url).path], when [urlparse] returns. *)
Definition path_of `{PyRuntime} (url : string) : option string :=
  match urlparse url with
  | Ok parsed => Some (path parsed)
  | Raise _ => None
  end.

(** [unquote(s)]: a string without a percent sign is returned as it is. *)
Definition unquote `{PyRuntime} (s : string) : string :=
  if negb (Str.contains "%" s) then s else unquote_escapes s.

(** One field of the query in [parse_qsl], with [keep_blank_values] and
    [strict_parsing] both false: a field without [=] or with an empty
    value yields nothing. *)
Definition parse_field `{PyRuntime} (name_value : string) : list (string * string) :=
  if negb (Str.nonempty name_value) then []
  else match Str.partition "=" name_value with
       | None => []
       | Some (n, v) =>
           if Str.nonempty v
           then [(unquote (Str.replace_char "+" " " n),
                  unquote (Str.replace_char "+" " " v))]
           else []
       end.

Definition parse_qsl `{PyRuntime} (qs : string) : list (string * string) :=
  let query_args := if Str.nonempty qs then Str.split "&" qs else [] in
  flat_map parse_field query_args.

Definition add_pair (parsed_result : gmap string (list string))
    (nv : string * string) : gmap string (list string) :=
  let (name, value) := nv in
  match parsed_result !! name with
  | Some vs => <[name := vs ++ [value]]> parsed_result
  | None => <[name := [value]]> parsed_result
  end.

Definition parse_qs `{PyRuntime} (qs : string) : gmap string (list string) :=
  foldl add_pair ∅ (parse_qsl qs).

End urllib.

(** ** The handler *)

Section Handler.

Context {X : Type} {RT : PyRuntime} {YDL : YoutubeDL X}.

Local Abbreviation M := (M X).

Definition lift {A} (r : result A) : M A := fun w => (r, w).

(** *** What [BaseHTTPRequestHandler] provides *)

(** [YTDLPHandler.log_message]: prints its first argument. *)
Definition log_message (arg0 : string) : M unit :=
  print ("[yt-dlp-server] " +:+ arg0).

(** [self.request_version != 'HTTP/0.9']: the guard of
    [send_response_only], [send_header] and [end_headers].  An HTTP/0.9
    request gets no status line and no header. *)
Definition has_headers (self : Request) : bool :=
  negb (String.eqb (request_version self) "HTTP/0.9").

Definition send_response_only (self : Request) (code : Z) : M unit :=
  if has_headers self then
    fun w => (Ok tt, mkWorld (fs w) (ext w) (tmp_names w) (trace w)
                             (headers_buffer w ++ [StatusLine code]) (wfile w))
  else ret tt.

(** [send_response]: logs the request, then buffers the status line. *)
Definition send_response (self : Request) (code : Z) : M unit :=
  log_message (requestline self) ;;;
  send_response_only self code.

Definition send_header (self : Request) (keyword value : string) : M unit :=
  if has_headers self then
    fun w => (Ok tt, mkWorld (fs w) (ext w) (tmp_names w) (trace w)
                             (headers_buffer w ++ [HeaderLine keyword value]) (wfile w))
  else ret tt.

(** [end_headers], with the [flush_headers] it calls. *)
Definition end_headers (self : Request) : M unit :=
  if has_headers self then
    fun w => (Ok tt, mkWorld (fs w) (ext w) (tmp_names w) (trace w)
                             [] (wfile w ++ [HeaderBlock (headers_buffer w)]))
  else ret tt.

Definition wfile_write (data : list byte) : M unit :=
  fun w => (Ok tt, mkWorld (fs w) (ext w) (tmp_names w) (trace w)
                           (headers_buffer w) (wfile w ++ [Body data])).

(** [send_error(code, message)]. *)
Definition send_error (self : Request) (code : Z) (message : string) : M unit :=
  log_message (pretty code) ;;;
  send_response self code ;;;
  send_header self "Connection" "close" ;;;
  let has_body :=
    (200 <=? code) && negb ((code =? 204) || (code =? 205) || (code =? 304)) in
  let body := if has_body then error_page code message else [] in
  (if has_body
   then send_header self "Content-Type" "text/html;charset=utf-8" ;;;
        send_header self "Content-Length" (pretty (length body))
   else ret tt) ;;;
  end_headers self ;;;
  if negb (String.eqb (command self) "HEAD")
     && match body with [] => false | _ => true end
  then wfile_write body
  else ret tt.

(** [with yt_dlp.YoutubeDL(opts) as ydl: ydl.extract_info(url,
    download=...)]: building the object, the call and leaving the [with]
    block are one step of the engine.  The [import yt_dlp] before it is
    taken to succeed, as the start-up check of the script ensures. *)
Definition ydl_extract_info (opts : pyval) (url : string) (download : bool)
    : M (gmap string pyval) :=
  emit (EvEngine opts url download) ;;;
  fun w =>
    match extract_info opts url download (ext w) (fs w) with
    | (r, x', f') =>
        (r, mkWorld f' x' (tmp_names w) (trace w) (headers_buffer w) (wfile w))
    end.

(** [d.get(key, default)]. *)
Definition dict_get (d : gmap string pyval) (key : string) (dflt : pyval) : pyval :=
  default dflt (d !! key).

(** *** [YTDLPHandler] *)

Definition send_json (self : Request) (data : pyval) (status : Z) : M unit :=
  send_response self status ;;;
  send_header self "Content-Type" "application/json" ;;;
  send_header self "Access-Control-Allow-Origin" "*" ;;;
  end_headers self ;;;
  wfile_write (Json.dumps_bytes data).

Definition error_body (msg : string) : pyval := PDict [("error", PStr msg)].

Definition send_file (self : Request) (filepath : string) : M unit :=
  try_except
    (data <- os.read_binary filepath ;;
     send_response self 200 ;;;
     send_header self "Content-Type" "application/octet-stream" ;;;
     send_header self "Content-Length" (pretty (length data)) ;;;
     send_header self "Access-Control-Allow-Origin" "*" ;;;
     end_headers self ;;;
     wfile_write data)
    (fun e => send_json self (error_body (exn_str e)) 500).

Definition get_video_info (url : string) : M pyval :=
  let ydl_opts := PDict [("quiet", PBool true);
                         ("no_warnings", PBool true);
                         ("extract_flat", PBool false)] in
  info <- ydl_extract_info ydl_opts url false ;;
  ret (PDict [("title", dict_get info "title" (PStr "Unknown"));
              ("author", dict_get info "uploader" (PStr "Unknown"));
              ("duration", dict_get info "duration" (PInt 0));
              ("thumbnail", dict_get info "thumbnail" (PStr ""));
              ("id", dict_get info "id" (PStr ""))]).

(** [params.get(key, [None])[0]]. *)
Definition first_value (params : gmap string (list string)) (key : string)
    : M (option string) :=
  match params !! key with
  | None => ret None
  | Some (v :: _) => ret (Some v)
  | Some [] => raise (Exn "IndexError" "list index out of range")
  end.

(** [not v] for [v] a string or [None]; where it is false, [v] is the
    string [default "" v]. *)
Definition is_missing (v : option string) : bool :=
  match v with
  | Some s => negb (Str.nonempty s)
  | None => true
  end.

(** The loop [for f in os.listdir(output_dir): ... break] over the
    entries still to visit: the first entry that is a regular file. *)
Fixpoint first_file (output_dir : string) (entries : list string)
    : M (option string) :=
  match entries with
  | [] => ret None
  | f :: rest =>
      let filepath := os.path_join output_dir f in
      b <- os.path_isfile filepath ;;
      if b then ret (Some filepath) else first_file output_dir rest
  end.

(** [downloaded_file] after the scan of the output directory, which the
    source writes out once in the [try] block and once in the handler. *)
Definition find_downloaded_file (output_dir : string) : M (option string) :=
  entries <- os.listdir output_dir ;;
  first_file output_dir entries.

Definition ydl_opts (output_template : string) : pyval :=
  PDict [("format", PStr "bestaudio/best");
         ("outtmpl", PStr output_template);
         ("quiet", PBool false);
         ("no_warnings", PBool false);
         ("postprocessors",
          PList [PDict [("key", PStr "FFmpegExtractAudio");
                        ("preferredcodec", PStr "m4a");
                        ("preferredquality", PStr "192")]])].

Definition ydl_opts_simple (output_template : string) : pyval :=
  PDict [("format", PStr "bestaudio/best");
         ("outtmpl", PStr output_template);
         ("quiet", PBool false)].

Definition download_audio (url : string) : M pyval :=
  output_dir <- tempfile.mkdtemp "ytdlp_" ;;
  let output_template := os.path_join output_dir "%(title)s.%(ext)s" in
  print ("[yt-dlp-server] Downloading to: " +:+ output_dir) ;;;
  found <-
    try_except
      (info <- ydl_extract_info (ydl_opts output_template) url true ;;
       let title := dict_get info "title" (PStr "audio") in
       downloaded_file <- find_downloaded_file output_dir ;;
       ret (downloaded_file, title))
      (fun e =>
         print ("[yt-dlp-server] FFmpeg extraction failed: " +:+ exn_str e) ;;;
         print "[yt-dlp-server] Trying without post-processing..." ;;;
         info <- ydl_extract_info (ydl_opts_simple output_template) url true ;;
         let title := dict_get info "title" (PStr "audio") in
         downloaded_file <- find_downloaded_file output_dir ;;
         ret (downloaded_file, title)) ;;
  let '(downloaded_file, title) := found in
  if is_missing downloaded_file then
    ret (error_body "Download completed but file not found")
  else
    let file := default "" downloaded_file in
    size <- os.path_getsize file ;;
    print ("[yt-dlp-server] Downloaded: " +:+ file +:+ " ("
           +:+ pretty size +:+ " bytes)") ;;;
    ret (PDict [("success", PBool true);
                ("title", title);
                ("filepath", PStr file);
                ("size", PInt size)]).

Definition do_GET (self : Request) : M unit :=
  parsed <- lift (urllib.urlparse (path self)) ;;
  let params := urllib.parse_qs (urllib.query parsed) in
  if String.eqb (urllib.path parsed) "/health" then
    send_json self (PDict [("status", PStr "ok"); ("version", PStr "1.0")]) 200
  else if String.eqb (urllib.path parsed) "/info" then
    url <- first_value params "url" ;;
    if is_missing url then
      send_json self (error_body "Missing url parameter") 400
    else
      try_except
        (info <- get_video_info (default "" url) ;;
         send_json self info 200)
        (fun e => send_json self (error_body (exn_str e)) 500)
  else if String.eqb (urllib.path parsed) "/download" then
    url <- first_value params "url" ;;
    if is_missing url then
      send_json self (error_body "Missing url parameter") 400
    else
      try_except
        (result <- download_audio (default "" url) ;;
         send_json self result 200)
        (fun e =>
           emit (EvTraceback e) ;;;
           send_json self (error_body (exn_str e)) 500)
  else if String.eqb (urllib.path parsed) "/file" then
    filepath <- first_value params "path" ;;
    if is_missing filepath then
      send_json self (error_body "Missing path parameter") 400
    else
      exists_ <- os.path_exists (default "" filepath) ;;
      if exists_ then send_file self (default "" filepath)
      else send_json self (error_body "File not found") 404
  else
    send_json self (error_body "Not found") 404.

Definition do_OPTIONS (self : Request) : M unit :=
  send_response self 200 ;;;
  send_header self "Access-Control-Allow-Origin" "*" ;;;
  send_header self "Access-Control-Allow-Methods" "GET, POST, OPTIONS" ;;;
  send_header self "Access-Control-Allow-Headers" "Content-Type" ;;;
  end_headers self.

(** The dispatch of [handle_one_request]: [do_<command>] when the class
    defines it, the base class's 501 otherwise.  [YTDLPHandler] defines
    [do_GET] and [do_OPTIONS] and nothing else. *)
Definition handle_one_request (self : Request) : M unit :=
  if String.eqb (command self) "GET" then do_GET self
  else if String.eqb (command self) "OPTIONS" then do_OPTIONS self
  else send_error self 501 ("Unsupported method (" +:+ repr_str (command self) +:+ ")").

End Handler.

(** ** Observations *)

(** The engine calls recorded in a trace, in order. *)
Definition engine_calls (tr : list event) : list (pyval * string * bool) :=
  flat_map (fun e => match e with
                     | EvEngine opts url download => [(opts, url, download)]
                     | _ => []
                     end) tr.

(** The filesystem accesses recorded in a trace, in order. *)
Definition fs_accesses (tr : list event) : list (fs_op * string) :=
  flat_map (fun e => match e with
                     | EvFs op p => [(op, p)]
                     | _ => []
                     end) tr.

(** What [send_json(data, status)] puts on the wire for a request with
    an HTTP version from 1.0 on. *)
Definition json_response (status : Z) (data : pyval) : list chunk :=
  [HeaderBlock [StatusLine status;
                HeaderLine "Content-Type" "application/json";
                HeaderLine "Access-Control-Allow-Origin" "*"];
   Body (Json.dumps_bytes data)].

(** What [send_json(data, status)] puts on the wire for the request
    [self]: for an HTTP/0.9 request the body alone. *)
Definition json_on_wire (self : Request) (status : Z) (data : pyval) : list chunk :=
  if has_headers self then json_response status data
  else [Body (Json.dumps_bytes data)].

(** What [send_file] puts on the wire for the request [self] when the
    file reads as [data]: for an HTTP/0.9 request the bytes alone. *)
Definition file_on_wire (self : Request) (data : list byte) : list chunk :=
  (if has_headers self
   then [HeaderBlock [StatusLine 200;
                      HeaderLine "Content-Type" "application/octet-stream";
                      HeaderLine "Content-Length" (pretty (length data));
                      HeaderLine "Access-Control-Allow-Origin" "*"]]
   else [])
  ++ [Body data].

(** [os.path.isfile] as a test on a filesystem. *)
Definition is_regular (f : gmap string node) (p : string) : bool :=
  match os.stat f p with Some (File _ _) => true | _ => false end.

(** A JSON string literal, for spelling out expected bodies. *)
Definition quoted (s : string) : string :=
  String Str.dquote (s +:+ String Str.dquote EmptyString).

(** The world after some more events. *)
Definition logged {X} (w : World X) (evs : list event) : World X :=
  mkWorld (fs w) (ext w) (tmp_names w) (trace w ++ evs) (headers_buffer w) (wfile w).

(** The world after a complete response from an empty header buffer. *)
Definition responded {X} (w : World X) (evs : list event) (cs : list chunk) : World X :=
  mkWorld (fs w) (ext w) (tmp_names w) (trace w ++ evs) [] (wfile w ++ cs).

(** The fields of a query string, as [parse_qsl] splits it. *)
Definition query_fields (qs : string) : list string := Str.split "&" qs.

(** Every field of the query named [key] has an empty value: the query
    carries the parameter, if at all, only blank. *)
Definition only_blank `{PyRuntime} (key qs : string) : Prop :=
  forall field n v,
    field ∈ query_fields qs ->
    Str.partition "=" field = Some (n, v) ->
    urllib.unquote (Str.replace_char "+" " " n) = key ->
    v = "".

(** The request is answered with one JSON response, as [send_json(data,
    status)] writes it for this request, and nothing else happens: no
    exception, no engine call, no filesystem access, the filesystem and
    the engine's state as they were. *)
Definition answered_untouched {X} {RT : PyRuntime} {YDL : YoutubeDL X}
    (self : Request) (w : World X) (status : Z) (data : pyval) : Prop :=
  exists w',
    handle_one_request self w = (Ok tt, w')
    /\ wfile w' = wfile w ++ json_on_wire self status data
    /\ engine_calls (trace w') = engine_calls (trace w)
    /\ fs_accesses (trace w') = fs_accesses (trace w)
    /\ fs w' = fs w /\ ext w' = ext w.

(** A computation that writes nothing to the client. *)
Definition keeps_wire {X A} (m : M X A) : Prop :=
  forall w, wfile (m w).2 = wfile w /\ headers_buffer (m w).2 = headers_buffer w.

(** The keys of a dict, in order. *)
Definition dict_keys (v : pyval) : list string :=
  match v with
  | PDict items => map fst items
  | _ => []
  end.

Definition post (target : string) : Request :=
  {| command := "POST"; path := target;
     requestline := "POST " +:+ target +:+ " HTTP/1.1";
     request_version := "HTTP/1.1" |}.

(** ** A concrete runtime and engine, for running the handler *)

(** [html.escape(s, quote=False)]. *)
Fixpoint html_escape (s : string) : string :=
  match s with
  | EmptyString => EmptyString
  | String c s' =>
      (if Ascii.eqb c "&" then "&amp;"
       else if Ascii.eqb c "<" then "&lt;"
       else if Ascii.eqb c ">" then "&gt;"
       else String c EmptyString) +:+ html_escape s'
  end.

(** [DEFAULT_ERROR_MESSAGE] of [http.server], filled in. *)
Definition default_error_message (code : Z) (message explain : string) : string :=
  let nl := String "010" EmptyString in
  "<!DOCTYPE HTML>" +:+ nl
  +:+ "<html lang=" +:+ quoted "en" +:+ ">" +:+ nl
  +:+ "    <head>" +:+ nl
  +:+ "        <meta charset=" +:+ quoted "utf-8" +:+ ">" +:+ nl
  +:+ "        <title>Error response</title>" +:+ nl
  +:+ "    </head>" +:+ nl
  +:+ "    <body>" +:+ nl
  +:+ "        <h1>Error response</h1>" +:+ nl
  +:+ "        <p>Error code: " +:+ pretty code +:+ "</p>" +:+ nl
  +:+ "        <p>Message: " +:+ html_escape message +:+ ".</p>" +:+ nl
  +:+ "        <p>Error code explanation: " +:+ pretty code +:+ " - "
  +:+ html_escape explain +:+ ".</p>" +:+ nl
  +:+ "    </body>" +:+ nl
  +:+ "</html>" +:+ nl.

(** A runtime for the examples below; none of them has a percent escape,
    a bracketed or a non-ASCII netloc, so the first three fields are never
    consulted.  The error page is the one [send_error] renders; its
    explanation is that of 501, the only code this handler passes. *)
Definition example_runtime : PyRuntime := {|
  unquote_escapes := fun s => s;
  check_bracketed_netloc := fun _ => None;
  checknetloc_nfkc := fun _ => None;
  gettempdir := "/tmp";
  dir_st_size := 4096;
  repr_str := fun s => "'" +:+ s +:+ "'";
  error_page := fun code message =>
    list_byte_of_string
      (default_error_message code message
         (if (code =? 501)%Z then "Server does not support this operation"
          else "???"));
|}.

(** An engine that plays a script: each call consumes one step, which
    fixes what the call returns and what it does to the filesystem. *)
Definition step : Type :=
  result (gmap string pyval) * (gmap string node -> gmap string node).

Definition scripted_engine : YoutubeDL (list step) :=
  fun _ _ _ script f =>
    match script with
    | [] => (Raise (Exn "DownloadError" "ERROR: script exhausted"), [], f)
    | (r, change) :: script' => (r, script', change f)
    end.

(** Writing one file into a directory. *)
Definition write_file (dir name : string) (data : list byte)
    (f : gmap string node) : gmap string node :=
  <[os.path_join dir name := File data true]> (alter (os.add_entry name) dir f).

Definition example_fs : gmap string node :=
  {[ "/tmp" := Dir []; "/music/a.m4a" := File [x49; x44; x33] true ]}.

(** [example_fs] once [mkdtemp] has made its directory. *)
Definition example_fs_with_dir : gmap string node :=
  <["/tmp/ytdlp_abc12345" := Dir []]>
    (alter (os.add_entry "ytdlp_abc12345") "/tmp" example_fs).

Definition example_world (script : list step) : World (list step) :=
  mkWorld example_fs script ["abc12345"] [] [] [].

Definition example_info : gmap string pyval :=
  {[ "title" := PStr "Song"; "id" := PStr "xyz" ]}.

Definition get (target : string) : Request :=
  {| command := "GET"; path := target;
     requestline := "GET " +:+ target +:+ " HTTP/1.1";
     request_version := "HTTP/1.1" |}.

(** The request of a client that sends the line [GET target] and nothing
    more: [parse_request] leaves the default version in place. *)
Definition get09 (target : string) : Request :=
  {| command := "GET"; path := target;
     requestline := "GET " +:+ target;
     request_version := "HTTP/0.9" |}.

Definition options (target : string) : Request :=
  {| command := "OPTIONS"; path := target;
     requestline := "OPTIONS " +:+ target +:+ " HTTP/1.1";
     request_version := "HTTP/1.1" |}.

(** A filesystem whose temporary directory is gone. *)
Definition example_fs_no_tmp : gmap string node :=
  {[ "/music/a.m4a" := File [x49; x44; x33] true ]}.

(** ** Further observations *)

(** A computation that only appends events other than engine calls and
    leaves every other part of the world as it was. *)
Definition local_step {X A} (m : M X A) : Prop :=
  forall w, exists evs, (m w).2 = logged w evs /\ engine_calls evs = [].


(** A computation that leaves the filesystem as it was. *)
Definition keeps_fs {X A} (m : M X A) : Prop :=
  forall w, fs (m w).2 = fs w.

(** An engine that never changes the filesystem. *)
Definition fs_neutral {X} (ydl : YoutubeDL X) : Prop :=
  forall opts url download x f, (ydl opts url download x f).2 = f.


(** The values of the pairs named [key], in query order. *)
Definition values_of (key : string) (pairs : list (string * string)) : list string :=
  map snd (List.filter (fun nv => String.eqb nv.1 key) pairs).

(** A parameter value that reaches the handler without being cut or
    percent-decoded: not empty and free of [#], [&], [%], tab, line feed
    and carriage return. *)
Definition plain_value (v : string) : bool :=
  Str.nonempty v
  && negb (Str.contains "#" v) && negb (Str.contains "&" v)
  && negb (Str.contains "%" v) && negb (Str.contains "009" v)
  && negb (Str.contains "010" v) && negb (Str.contains "013" v).

(** An engine without network: every call raises and changes nothing. *)
Definition offline_engine : YoutubeDL unit :=
  fun _ _ _ x f => (Raise (Exn "DownloadError" "ERROR: network unreachable"), x, f).

(** ** [get_local_ip] *)

Module socket.











End socket.




(** A directory that lists a subdirectory before two files. *)
Definition example_fs_listing : gmap string node :=
  {[ "/d" := Dir ["sub"; "a.m4a"; "b.jpg"];
     "/d/sub" := Dir [];
     "/d/a.m4a" := File [x01] true;
     "/d/b.jpg" := File [x02; x03] true ]}.

(** * Properties *)

Section Properties.

Context {X : Type} {RT : PyRuntime} {YDL : YoutubeDL X}.

Implicit Types (w : World X) (self : Request) (tr : list event).

Lemma logged_nil w : logged w [] = w.
Proof. destruct w; unfold logged; simpl. by rewrite app_nil_r. Qed.

Lemma logged_logged w evs evs' : logged (logged w evs) evs' = logged w (evs ++ evs').
Proof. unfold logged; simpl. by rewrite app_assoc. Qed.

Lemma engine_calls_app tr tr' :
  engine_calls (tr ++ tr') = engine_calls tr ++ engine_calls tr'.
Proof. apply flat_map_app. Qed.

Lemma fs_accesses_app tr tr' :
  fs_accesses (tr ++ tr') = fs_accesses tr ++ fs_accesses tr'.
Proof. apply flat_map_app. Qed.

(** ** The response primitives *)

Lemma has_headers_true self :
  request_version self ≠ "HTTP/0.9" -> has_headers self = true.
Proof. intros Hv. unfold has_headers. by apply negb_true_iff, String.eqb_neq. Qed.

Lemma has_headers_false self :
  request_version self = "HTTP/0.9" -> has_headers self = false.
Proof. intros Hv. unfold has_headers. by rewrite Hv. Qed.

Lemma send_json_run self data status w :
  has_headers self = true ->
  send_json self data status w
  = (Ok tt,
     mkWorld (fs w) (ext w) (tmp_names w)
       (trace w ++ [EvPrint ("[yt-dlp-server] " +:+ requestline self)])
       []
       (wfile w ++ [HeaderBlock (headers_buffer w ++
                       [StatusLine status;
                        HeaderLine "Content-Type" "application/json";
                        HeaderLine "Access-Control-Allow-Origin" "*"]);
                    Body (Json.dumps_bytes data)])).
Proof.
  intros Hh.
  unfold send_json, send_response, send_response_only, send_header, end_headers,
    wfile_write, log_message, print, emit, bind; rewrite Hh; simpl.
  by rewrite <- !app_assoc.
Qed.

(** An HTTP/0.9 request gets the JSON text and nothing before it. *)
Lemma send_json_bare self data status w :
  has_headers self = false ->
  send_json self data status w
  = (Ok tt,
     mkWorld (fs w) (ext w) (tmp_names w)
       (trace w ++ [EvPrint ("[yt-dlp-server] " +:+ requestline self)])
       (headers_buffer w)
       (wfile w ++ [Body (Json.dumps_bytes data)])).
Proof.
  intros Hh.
  unfold send_json, send_response, send_response_only, send_header, end_headers,
    wfile_write, log_message, print, emit, bind, ret; rewrite Hh; reflexivity.
Qed.

Lemma send_json_fresh self data status w :
  headers_buffer w = [] ->
  send_json self data status w
  = (Ok tt, responded w [EvPrint ("[yt-dlp-server] " +:+ requestline self)]
                      (json_on_wire self status data)).
Proof.
  intros Hb. unfold json_on_wire. destruct (has_headers self) eqn:Hh.
  - rewrite send_json_run, Hb by done. reflexivity.
  - rewrite send_json_bare by done. unfold responded. by rewrite Hb.
Qed.

Lemma do_OPTIONS_run self w :
  headers_buffer w = [] ->
  do_OPTIONS self w
  = (Ok tt,
     responded w [EvPrint ("[yt-dlp-server] " +:+ requestline self)]
       (if has_headers self
        then [HeaderBlock [StatusLine 200;
                           HeaderLine "Access-Control-Allow-Origin" "*";
                           HeaderLine "Access-Control-Allow-Methods" "GET, POST, OPTIONS";
                           HeaderLine "Access-Control-Allow-Headers" "Content-Type"]]
        else [])).
Proof.
  intros Hb. destruct w as [f x names tr buf wf]. simpl in Hb. subst buf.
  unfold do_OPTIONS, send_response, send_response_only, send_header, end_headers,
    log_message, print, emit, bind, ret, responded.
  destruct (has_headers self); simpl; [reflexivity|].
  by rewrite app_nil_r.
Qed.

(** ** Routing *)

Lemma do_GET_parsed self w parsed :
  urllib.urlparse (path self) = Ok parsed ->
  do_GET self w
  = (let params := urllib.parse_qs (urllib.query parsed) in
     if String.eqb (urllib.path parsed) "/health" then
       send_json self (PDict [("status", PStr "ok"); ("version", PStr "1.0")]) 200
     else if String.eqb (urllib.path parsed) "/info" then
       url <- first_value params "url" ;;
       if is_missing url then
         send_json self (error_body "Missing url parameter") 400
       else
         try_except
           (info <- get_video_info (default "" url) ;;
            send_json self info 200)
           (fun e => send_json self (error_body (exn_str e)) 500)
     else if String.eqb (urllib.path parsed) "/download" then
       url <- first_value params "url" ;;
       if is_missing url then
         send_json self (error_body "Missing url parameter") 400
       else
         try_except
           (result <- download_audio (default "" url) ;;
            send_json self result 200)
           (fun e =>
              emit (EvTraceback e) ;;;
              send_json self (error_body (exn_str e)) 500)
     else if String.eqb (urllib.path parsed) "/file" then
       filepath <- first_value params "path" ;;
       if is_missing filepath then
         send_json self (error_body "Missing path parameter") 400
       else
         exists_ <- os.path_exists (default "" filepath) ;;
         if exists_ then send_file self (default "" filepath)
         else send_json self (error_body "File not found") 404
     else
       send_json self (error_body "Not found") 404) w.
Proof. intros Hp. unfold do_GET, bind at 1, lift. rewrite Hp. reflexivity. Qed.

(** C9, as the code has it.  A GET request whose path is [/health] is
    answered with the body [{"status": "ok", "version": "1.0"}], whatever
    its query string, and no exception escapes; before the body goes one
    header block with status 200, unless the request is HTTP/0.9, which
    gets the body alone. *)
Theorem health_always_ok self w parsed :
  command self = "GET" ->
  headers_buffer w = [] ->
  urllib.urlparse (path self) = Ok parsed ->
  urllib.path parsed = "/health" ->
  exists w',
    handle_one_request self w = (Ok tt, w')
    /\ wfile w' = wfile w ++
         (if has_headers self
          then [HeaderBlock [StatusLine 200;
                             HeaderLine "Content-Type" "application/json";
                             HeaderLine "Access-Control-Allow-Origin" "*"]]
          else [])
         ++ [Body (list_byte_of_string
                     ("{" +:+ quoted "status" +:+ ": " +:+ quoted "ok" +:+ ", "
                      +:+ quoted "version" +:+ ": " +:+ quoted "1.0" +:+ "}"))].
Proof.
  intros Hc Hb Hp Hpath.
  unfold handle_one_request. rewrite Hc. simpl.
  rewrite (do_GET_parsed _ _ _ Hp), Hpath. simpl.
  rewrite send_json_fresh by done.
  eexists; split; [reflexivity|]. unfold json_on_wire.
  by destruct (has_headers self).
Qed.

(** ** Missing parameters *)

Lemma first_value_none (params : gmap string (list string)) key w :
  params !! key = None -> first_value params key w = (Ok None, w).
Proof. intros Hk. unfold first_value. rewrite Hk. reflexivity. Qed.

Lemma first_value_some (params : gmap string (list string)) key v vs w :
  params !! key = Some (v :: vs) -> first_value params key w = (Ok (Some v), w).
Proof. intros Hk. unfold first_value. rewrite Hk. reflexivity. Qed.

Lemma responded_untouched self w w' status data :
  handle_one_request self w = (Ok tt, w') ->
  w' = responded w [EvPrint ("[yt-dlp-server] " +:+ requestline self)]
                 (json_on_wire self status data) ->
  answered_untouched self w status data.
Proof.
  intros Hrun ->. eexists; split; [exact Hrun|]. simpl.
  rewrite engine_calls_app, fs_accesses_app. simpl.
  by rewrite !app_nil_r.
Qed.

Lemma missing_parameter_answer self w parsed :
  command self = "GET" ->
  headers_buffer w = [] ->
  urllib.urlparse (path self) = Ok parsed ->
  (urllib.path parsed = "/info" \/ urllib.path parsed = "/download" ->
   urllib.parse_qs (urllib.query parsed) !! "url" = None ->
   answered_untouched self w 400 (error_body "Missing url parameter"))
  /\ (urllib.path parsed = "/file" ->
      urllib.parse_qs (urllib.query parsed) !! "path" = None ->
      answered_untouched self w 400 (error_body "Missing path parameter")).
Proof.
  intros Hc Hb Hp.
  assert (Hrun : handle_one_request self w = do_GET self w).
  { unfold handle_one_request. by rewrite Hc. }
  split.
  - intros Hpath Hk.
    eapply responded_untouched; [|reflexivity].
    rewrite Hrun, (do_GET_parsed _ _ _ Hp).
    destruct Hpath as [-> | ->]; simpl;
      unfold bind; rewrite (first_value_none _ _ _ Hk); simpl;
      by rewrite send_json_fresh.
  - intros Hpath Hk.
    eapply responded_untouched; [|reflexivity].
    rewrite Hrun, (do_GET_parsed _ _ _ Hp), Hpath. simpl.
    unfold bind. rewrite (first_value_none _ _ _ Hk). simpl.
    by rewrite send_json_fresh.
Qed.

(** What [answered_untouched] puts on the wire, by request version. *)
Lemma json_on_wire_versions self status data :
  (request_version self ≠ "HTTP/0.9" ->
   json_on_wire self status data
   = [HeaderBlock [StatusLine status;
                   HeaderLine "Content-Type" "application/json";
                   HeaderLine "Access-Control-Allow-Origin" "*"];
      Body (Json.dumps_bytes data)])
  /\ (request_version self = "HTTP/0.9" ->
      json_on_wire self status data = [Body (Json.dumps_bytes data)]).
Proof.
  unfold json_on_wire. split; intros Hv.
  - by rewrite has_headers_true.
  - by rewrite has_headers_false.
Qed.

(** C6, as the code has it.  A GET request to [/info] or [/download]
    without a [url] parameter is answered with the body
    [{"error": "Missing url parameter"}], one to [/file] without a [path]
    parameter with [{"error": "Missing path parameter"}]; the body comes
    after a header block with status 400, unless the request is HTTP/0.9,
    which gets the body alone.  In every case the engine is not called and
    the filesystem is not accessed. *)
Theorem missing_parameter_400 self w parsed :
  command self = "GET" ->
  headers_buffer w = [] ->
  urllib.urlparse (path self) = Ok parsed ->
  (urllib.path parsed = "/info" \/ urllib.path parsed = "/download" ->
   urllib.parse_qs (urllib.query parsed) !! "url" = None ->
   answered_untouched self w 400 (error_body "Missing url parameter"))
  /\ (urllib.path parsed = "/file" ->
      urllib.parse_qs (urllib.query parsed) !! "path" = None ->
      answered_untouched self w 400 (error_body "Missing path parameter")).
Proof. apply missing_parameter_answer. Qed.

(** ** Blank values *)

Lemma add_pair_lookup_ne (m : gmap string (list string)) nv key :
  nv.1 ≠ key -> urllib.add_pair m nv !! key = m !! key.
Proof.
  destruct nv as [name value]; simpl; intros Hne.
  destruct (m !! name); by rewrite lookup_insert_ne.
Qed.

Lemma foldl_add_pair_none (l : list (string * string)) key :
  forall m : gmap string (list string),
    m !! key = None ->
    Forall (fun nv => nv.1 ≠ key) l ->
    foldl urllib.add_pair m l !! key = None.
Proof.
  induction l as [|nv l IH]; intros m Hm Hl; simpl; [done|].
  inversion Hl; subst.
  apply IH; [|done]. by rewrite add_pair_lookup_ne.
Qed.

Lemma parse_field_elem field name value :
  (name, value) ∈ urllib.parse_field field ->
  exists n v,
    Str.partition "=" field = Some (n, v) /\ v ≠ ""
    /\ name = urllib.unquote (Str.replace_char "+" " " n).
Proof.
  unfold urllib.parse_field.
  destruct (Str.nonempty field); simpl; [|by intros ?%elem_of_nil].
  destruct (Str.partition "=" field) as [[n v]|]; [|by intros ?%elem_of_nil].
  destruct v as [|c v]; simpl; [by intros ?%elem_of_nil|].
  intros Hin%list_elem_of_singleton. injection Hin as -> _.
  by exists n, (String c v).
Qed.

Lemma parse_qsl_fields qs nv :
  nv ∈ urllib.parse_qsl qs ->
  exists field, field ∈ query_fields qs /\ nv ∈ urllib.parse_field field.
Proof.
  unfold urllib.parse_qsl, query_fields.
  rewrite list_elem_of_In, in_flat_map.
  intros (field & Hf & Hnv). exists field.
  rewrite !list_elem_of_In. split; [|done].
  destruct (Str.nonempty qs); [done | destruct Hf].
Qed.

(** A parameter that occurs only with empty values is dropped by
    [parse_qs]: the parsed query has no such key. *)
Lemma parse_qs_only_blank key qs :
  only_blank key qs -> urllib.parse_qs qs !! key = None.
Proof.
  intros Hblank. unfold urllib.parse_qs.
  apply foldl_add_pair_none; [apply lookup_empty|].
  apply Forall_forall. intros [name value] Hin Heq. simpl in Heq.
  apply parse_qsl_fields in Hin as (field & Hf & Hin).
  apply parse_field_elem in Hin as (n & v & Hpart & Hv & Hname).
  apply Hv. eapply Hblank; [exact Hf | exact Hpart | congruence].
Qed.

(** C10, as the code has it.  A GET request to [/info] or [/download]
    whose [url] parameter occurs only with an empty value, and one to
    [/file] whose [path] parameter occurs only with an empty value, gets
    the answer of a request without the parameter: the pair is dropped by
    the query parser, and the presence check rejects an empty string as it
    rejects [None].  That answer is the missing-parameter body, after a
    header block with status 400 unless the request is HTTP/0.9. *)
Theorem blank_parameter_400 self w parsed :
  command self = "GET" ->
  headers_buffer w = [] ->
  urllib.urlparse (path self) = Ok parsed ->
  (urllib.path parsed = "/info" \/ urllib.path parsed = "/download" ->
   only_blank "url" (urllib.query parsed) ->
   urllib.parse_qs (urllib.query parsed) !! "url" = None
   /\ answered_untouched self w 400 (error_body "Missing url parameter"))
  /\ (urllib.path parsed = "/file" ->
      only_blank "path" (urllib.query parsed) ->
      urllib.parse_qs (urllib.query parsed) !! "path" = None
      /\ answered_untouched self w 400 (error_body "Missing path parameter"))
  /\ is_missing (Some "") = is_missing None.
Proof.
  intros Hc Hb Hp.
  destruct (missing_parameter_answer self w parsed Hc Hb Hp) as [Hurl Hfile].
  split; [|split; [|reflexivity]].
  - intros Hpath Hblank.
    pose proof (parse_qs_only_blank _ _ Hblank) as Hk. auto.
  - intros Hpath Hblank.
    pose proof (parse_qs_only_blank _ _ Hblank) as Hk. auto.
Qed.

(** ** Unknown paths and other methods *)

Lemma send_error_501 self message w :
  headers_buffer w = [] ->
  exists w',
    send_error self 501 message w = (Ok tt, w')
    /\ headers_buffer w' = []
    /\ wfile w' = wfile w ++
         (if has_headers self
          then [HeaderBlock [StatusLine 501;
                             HeaderLine "Connection" "close";
                             HeaderLine "Content-Type" "text/html;charset=utf-8";
                             HeaderLine "Content-Length"
                               (pretty (length (error_page 501 message)))]]
          else [])
         ++ (if negb (String.eqb (command self) "HEAD")
                && match error_page 501 message with [] => false | _ => true end
             then [Body (error_page 501 message)] else []).
Proof.
  intros Hb. destruct w as [f x names tr buf wf]. simpl in Hb. subst buf.
  unfold send_error, send_response, send_response_only, send_header, end_headers,
    wfile_write, log_message, print, emit, bind, ret.
  destruct (has_headers self); simpl;
    destruct (negb (String.eqb (command self) "HEAD")
              && match error_page 501 message with [] => false | _ => true end);
    simpl; eexists; (split; [reflexivity|]); simpl; (split; [reflexivity|]);
    rewrite ?app_nil_r, <- ?app_assoc; reflexivity.
Qed.

(** C7, as the code has it.  A GET request whose path is none of
    [/health], [/info], [/download], [/file] is answered with the body
    [{"error": "Not found"}], after a header block with status 404 unless
    the request is HTTP/0.9; an OPTIONS request is answered, whatever its
    path, with a 200 header block carrying the three CORS headers and no
    body (with nothing at all if it is HTTP/0.9); a request with any other
    method is not routed at all: the base class answers it 501. *)
Theorem unknown_path_by_method self w :
  headers_buffer w = [] ->
  (forall parsed,
     command self = "GET" ->
     urllib.urlparse (path self) = Ok parsed ->
     urllib.path parsed ∉ ["/health"; "/info"; "/download"; "/file"] ->
     answered_untouched self w 404 (error_body "Not found"))
  /\ (command self = "OPTIONS" ->
      exists w',
        handle_one_request self w = (Ok tt, w')
        /\ wfile w' = wfile w ++
             (if has_headers self
              then [HeaderBlock
                      [StatusLine 200;
                       HeaderLine "Access-Control-Allow-Origin" "*";
                       HeaderLine "Access-Control-Allow-Methods" "GET, POST, OPTIONS";
                       HeaderLine "Access-Control-Allow-Headers" "Content-Type"]]
              else []))
  /\ (command self ≠ "GET" -> command self ≠ "OPTIONS" ->
      exists w' lines rest,
        handle_one_request self w = (Ok tt, w')
        /\ wfile w' = wfile w ++
             (if has_headers self
              then HeaderBlock (StatusLine 501 :: lines) :: rest
              else rest)
        /\ Forall (fun c => exists data, c = Body data) rest).
Proof.
  intros Hb. split; [|split].
  - intros parsed Hc Hp Hpath.
    eapply responded_untouched; [|reflexivity].
    unfold handle_one_request. rewrite Hc. simpl.
    rewrite (do_GET_parsed _ _ _ Hp).
    rewrite !not_elem_of_cons in Hpath.
    destruct Hpath as (H1 & H2 & H3 & H4 & _).
    apply String.eqb_neq in H1, H2, H3, H4.
    simpl. rewrite H1, H2, H3, H4.
    by rewrite send_json_fresh.
  - intros Hc. unfold handle_one_request. rewrite Hc. simpl.
    rewrite do_OPTIONS_run by done. eexists; split; reflexivity.
  - intros Hg Ho. apply String.eqb_neq in Hg, Ho.
    unfold handle_one_request. rewrite Hg, Ho.
    destruct (send_error_501 self
                ("Unsupported method (" +:+ repr_str (command self) +:+ ")") w Hb)
      as (w' & Hrun & _ & Hw).
    exists w'. eexists. eexists. split; [exact Hrun|].
    split.
    + rewrite Hw. destruct (has_headers self); reflexivity.
    + destruct (_ && _); repeat constructor. by eexists.
Qed.

(** ** Serving a file *)

Lemma route_file self w parsed p rest :
  command self = "GET" ->
  urllib.urlparse (path self) = Ok parsed ->
  urllib.path parsed = "/file" ->
  urllib.parse_qs (urllib.query parsed) !! "path" = Some (p :: rest) ->
  p ≠ "" ->
  handle_one_request self w
  = (exists_ <- os.path_exists p ;;
     if exists_ then send_file self p
     else send_json self (error_body "File not found") 404) w.
Proof.
  intros Hc Hp Hpath Hk Hne.
  unfold handle_one_request. rewrite Hc. simpl.
  rewrite (do_GET_parsed _ _ _ Hp), Hpath. simpl.
  unfold bind at 1. rewrite (first_value_some _ _ _ _ _ Hk). simpl.
  by destruct p.
Qed.

Lemma send_file_run self p data w :
  headers_buffer w = [] ->
  os.stat (fs w) p = Some (File data true) ->
  send_file self p w
  = (Ok tt, responded w [EvFs OpOpen p;
                         EvPrint ("[yt-dlp-server] " +:+ requestline self)]
                      (file_on_wire self data)).
Proof.
  intros Hb Hstat.
  destruct w as [f x names tr buf wf]. simpl in Hb, Hstat. subst buf.
  unfold send_file, file_on_wire, os.read_binary, try_except, get_fs,
    send_response, send_response_only, send_header, end_headers, wfile_write,
    log_message, print, emit, bind, ret, responded.
  cbn [fs ext tmp_names trace headers_buffer wfile fst snd].
  rewrite Hstat. generalize (pretty (length data)). intros len.
  destruct (has_headers self);
    cbn [fs ext tmp_names trace headers_buffer wfile fst snd app];
    by rewrite <- ?app_assoc.
Qed.

(** C5, as the code has it.  A GET request to [/file] whose [path]
    parameter names an existing, readable regular file is answered with
    the file's bytes as the body; before them goes a header block with
    status 200, content type [application/octet-stream] and a
    [Content-Length] that is the decimal byte count of the file, unless
    the request is HTTP/0.9, which gets the bytes alone. *)
Theorem file_round_trip self w parsed p rest data :
  command self = "GET" ->
  headers_buffer w = [] ->
  urllib.urlparse (path self) = Ok parsed ->
  urllib.path parsed = "/file" ->
  urllib.parse_qs (urllib.query parsed) !! "path" = Some (p :: rest) ->
  os.stat (fs w) p = Some (File data true) ->
  exists w',
    handle_one_request self w = (Ok tt, w')
    /\ wfile w' = wfile w ++
         (if has_headers self
          then [HeaderBlock [StatusLine 200;
                             HeaderLine "Content-Type" "application/octet-stream";
                             HeaderLine "Content-Length" (pretty (length data));
                             HeaderLine "Access-Control-Allow-Origin" "*"]]
          else [])
         ++ [Body data]
    /\ fs w' = fs w.
Proof.
  intros Hc Hb Hp Hpath Hk Hstat.
  assert (Hne : p ≠ "").
  { intros ->. unfold os.stat in Hstat. simpl in Hstat. done. }
  rewrite (route_file _ _ _ _ _ Hc Hp Hpath Hk Hne).
  destruct w as [f x names tr buf wf]. simpl in Hb, Hstat. subst buf.
  unfold bind, os.path_exists, get_fs, emit, bind, ret.
  cbn [fs ext tmp_names trace headers_buffer wfile fst snd].
  rewrite Hstat. cbv beta iota.
  rewrite (send_file_run _ _ data) by done.
  eexists; split; [reflexivity|]. split; reflexivity.
Qed.

(** ** Steps that write nothing to the client *)

Lemma keeps_wire_ret {A} (a : A) : keeps_wire (ret (X:=X) a).
Proof. by intros w. Qed.

Lemma keeps_wire_raise {A} e : keeps_wire (raise (X:=X) (A:=A) e).
Proof. by intros w. Qed.

Lemma keeps_wire_lift {A} (r : result A) : keeps_wire (lift (X:=X) r).
Proof. by intros w. Qed.

Lemma keeps_wire_emit e : keeps_wire (emit (X:=X) e).
Proof. by intros w. Qed.

Lemma keeps_wire_get_fs : keeps_wire (get_fs (X:=X)).
Proof. by intros w. Qed.

Lemma keeps_wire_bind {A B} (m : M X A) (k : A -> M X B) :
  keeps_wire m -> (forall a, keeps_wire (k a)) -> keeps_wire (bind m k).
Proof.
  intros Hm Hk w. unfold bind. specialize (Hm w).
  destruct (m w) as [[a|e] w1]; simpl in *; [|done].
  destruct (Hk a w1) as [-> ->]. done.
Qed.

Lemma keeps_wire_try {A} (m : M X A) (h : exn -> M X A) :
  keeps_wire m -> (forall e, keeps_wire (h e)) -> keeps_wire (try_except m h).
Proof.
  intros Hm Hh w. unfold try_except. specialize (Hm w).
  destruct (m w) as [[a|e] w1]; simpl in *; [done|].
  destruct (Hh e w1) as [-> ->]. done.
Qed.

Lemma keeps_wire_engine opts url download :
  keeps_wire (ydl_extract_info opts url download).
Proof.
  intros w. unfold ydl_extract_info, bind, emit; simpl.
  by destruct (extract_info _ _ _ _ _) as [[r x'] f'].
Qed.

Lemma keeps_wire_mkdtemp prefix : keeps_wire (tempfile.mkdtemp (X:=X) prefix).
Proof.
  intros w. unfold tempfile.mkdtemp.
  by destruct (tempfile.mkdtemp_loop _ _ _ _ _) as [[[r names'] f'] tr'].
Qed.

Ltac wire_step :=
  first [ apply keeps_wire_ret | apply keeps_wire_raise | apply keeps_wire_lift
        | apply keeps_wire_emit | apply keeps_wire_get_fs
        | apply keeps_wire_engine | apply keeps_wire_mkdtemp
        | apply keeps_wire_bind; [|intros ?]
        | apply keeps_wire_try; [|intros ?] ].

Lemma keeps_wire_isfile p : keeps_wire (os.path_isfile (X:=X) p).
Proof. unfold os.path_isfile. repeat wire_step. Qed.

Lemma keeps_wire_exists p : keeps_wire (os.path_exists (X:=X) p).
Proof. unfold os.path_exists. repeat wire_step. Qed.

Lemma keeps_wire_getsize p : keeps_wire (os.path_getsize (X:=X) p).
Proof.
  unfold os.path_getsize. repeat wire_step.
  destruct (os.stat _ _) as [[]|]; wire_step.
Qed.

Lemma keeps_wire_listdir p : keeps_wire (os.listdir (X:=X) p).
Proof.
  unfold os.listdir. repeat wire_step.
  destruct (os.stat _ _) as [[]|]; wire_step.
Qed.


Lemma keeps_wire_first_file dir entries : keeps_wire (first_file (X:=X) dir entries).
Proof.
  induction entries as [|f rest IH]; simpl; [wire_step|].
  apply keeps_wire_bind; [apply keeps_wire_isfile|].
  intros []; [wire_step | exact IH].
Qed.

Lemma keeps_wire_find dir : keeps_wire (find_downloaded_file (X:=X) dir).
Proof.
  unfold find_downloaded_file.
  apply keeps_wire_bind; [apply keeps_wire_listdir|].
  intros entries. apply keeps_wire_first_file.
Qed.

Lemma keeps_wire_first_value params key : keeps_wire (first_value (X:=X) params key).
Proof. unfold first_value. destruct (params !! key) as [[]|]; wire_step. Qed.


Lemma keeps_wire_download_audio url : keeps_wire (download_audio url).
Proof.
  unfold download_audio, print.
  apply keeps_wire_bind; [wire_step|]. intros output_dir.
  apply keeps_wire_bind; [wire_step|]. intros _.
  apply keeps_wire_bind.
  - apply keeps_wire_try.
    + apply keeps_wire_bind; [wire_step|]. intros info.
      apply keeps_wire_bind; [apply keeps_wire_find|]. intros ?. wire_step.
    + intros e. do 3 (apply keeps_wire_bind; [wire_step|]; intros ?).
      apply keeps_wire_bind; [apply keeps_wire_find|]. intros ?. wire_step.
  - intros [downloaded_file title].
    destruct (is_missing downloaded_file); [wire_step|].
    apply keeps_wire_bind; [apply keeps_wire_getsize|]. intros size.
    repeat wire_step.
Qed.

(** ** Metadata *)

Lemma ydl_extract_info_run opts url download w r x' f' :
  extract_info opts url download (ext w) (fs w) = (r, x', f') ->
  ydl_extract_info opts url download w
  = (r, mkWorld f' x' (tmp_names w) (trace w ++ [EvEngine opts url download])
                (headers_buffer w) (wfile w)).
Proof.
  intros He. unfold ydl_extract_info, bind, emit; simpl. by rewrite He.
Qed.

(** C4, as the code has it.  When the engine's no-download query
    succeeds, the metadata operation returns a dict with exactly the keys
    [title], [author], [duration], [thumbnail], [id], in this order;
    [author] is the engine's [uploader]; a field the engine's result lacks
    is replaced by ["Unknown"] (title, author), [0] (duration) or the
    empty string (thumbnail, id). *)
Theorem video_info_fields url w info x' f' :
  extract_info (PDict [("quiet", PBool true); ("no_warnings", PBool true);
                       ("extract_flat", PBool false)])
               url false (ext w) (fs w) = (Ok info, x', f') ->
  exists record w',
    get_video_info url w = (Ok record, w')
    /\ dict_keys record = ["title"; "author"; "duration"; "thumbnail"; "id"]
    /\ record = PDict [("title", default (PStr "Unknown") (info !! "title"));
                       ("author", default (PStr "Unknown") (info !! "uploader"));
                       ("duration", default (PInt 0) (info !! "duration"));
                       ("thumbnail", default (PStr "") (info !! "thumbnail"));
                       ("id", default (PStr "") (info !! "id"))].
Proof.
  intros He. unfold get_video_info, bind.
  rewrite (ydl_extract_info_run _ _ _ _ _ _ _ He). simpl.
  eexists; eexists; split; [reflexivity|]. split; reflexivity.
Qed.

(** ** The download *)

Lemma path_isfile_run p w :
  os.path_isfile p w = (Ok (is_regular (fs w) p), logged w [EvFs OpIsfile p]).
Proof. reflexivity. Qed.

Lemma first_file_run dir entries w :
  exists evs,
    first_file dir entries w
    = (Ok (head (map (os.path_join dir)
                   (List.filter (fun g => is_regular (fs w) (os.path_join dir g))
                                entries))),
       logged w evs)
    /\ engine_calls evs = [].
Proof.
  revert w. induction entries as [|f rest IH]; intros w; simpl.
  - exists []. by rewrite logged_nil.
  - unfold bind. rewrite path_isfile_run.
    destruct (is_regular (fs w) (os.path_join dir f)) eqn:Hreg; simpl.
    + by eexists.
    + destruct (IH (logged w [EvFs OpIsfile (os.path_join dir f)])) as (evs & Hrun & Hevs).
      simpl in Hrun. rewrite Hrun, logged_logged.
      eexists; split; [reflexivity|]. done.
Qed.

Lemma find_downloaded_file_run dir entries w :
  os.stat (fs w) dir = Some (Dir entries) ->
  exists evs,
    find_downloaded_file dir w
    = (Ok (head (map (os.path_join dir)
                   (List.filter (fun g => is_regular (fs w) (os.path_join dir g))
                                entries))),
       logged w evs)
    /\ engine_calls evs = [].
Proof.
  intros Hdir. unfold find_downloaded_file, os.listdir, bind, emit, get_fs; simpl.
  rewrite Hdir. simpl.
  destruct (first_file_run dir entries
              (mkWorld (fs w) (ext w) (tmp_names w) (trace w ++ [EvFs OpListdir dir])
                       (headers_buffer w) (wfile w))) as (evs & Hrun & Hevs).
  simpl in Hrun. rewrite Hrun.
  exists (EvFs OpListdir dir :: evs). unfold logged; simpl.
  by rewrite <- app_assoc.
Qed.

Lemma mkdtemp_loop_engine_calls dir prefix names f tr r names' f' tr' :
  tempfile.mkdtemp_loop dir prefix names f tr = (r, names', f', tr') ->
  engine_calls tr' = engine_calls tr.
Proof.
  revert tr. induction names as [|name names IH]; intros tr; simpl.
  - by intros [= _ _ _ <-].
  - destruct (os.stat f dir) as [[]|].
    + intros [= _ _ _ <-]. rewrite engine_calls_app. simpl. by rewrite app_nil_r.
    + destruct (os.stat f _).
      * intros Hrec%IH. rewrite Hrec, engine_calls_app. simpl. by rewrite app_nil_r.
      * intros [= _ _ _ <-]. rewrite engine_calls_app. simpl. by rewrite app_nil_r.
    + intros [= _ _ _ <-]. rewrite engine_calls_app. simpl. by rewrite app_nil_r.
Qed.

Lemma mkdtemp_world prefix w r w0 :
  tempfile.mkdtemp prefix w = (r, w0) ->
  ext w0 = ext w /\ wfile w0 = wfile w /\ headers_buffer w0 = headers_buffer w
  /\ engine_calls (trace w0) = engine_calls (trace w).
Proof.
  unfold tempfile.mkdtemp.
  destruct (tempfile.mkdtemp_loop _ _ _ _ _) as [[[r' names'] f'] tr'] eqn:Hloop.
  intros [= _ <-]. simpl. repeat split.
  eapply mkdtemp_loop_engine_calls, Hloop.
Qed.

(** The directory [mkdtemp] returns did not exist before and is an empty
    directory afterwards. *)
Lemma mkdtemp_loop_fresh dir prefix names f tr file names' f' tr' :
  tempfile.mkdtemp_loop dir prefix names f tr = (Ok file, names', f', tr') ->
  os.stat f file = None /\ f' !! file = Some (Dir []).
Proof.
  revert tr. induction names as [|name names IH]; intros tr; simpl; [done|].
  destruct (os.stat f dir) as [[]|]; [done| |done].
  destruct (os.stat f (os.path_join dir (prefix +:+ name))) eqn:Hst.
  - apply IH.
  - intros [= <- _ <- _]. split; [done|]. apply lookup_insert_eq.
Qed.

#[local] Arguments os.stat : simpl never.
#[local] Arguments os.path_join : simpl never.
#[local] Arguments String.append : simpl never.

Lemma mkdtemp_fresh prefix w output_dir w0 :
  tempfile.mkdtemp prefix w = (Ok output_dir, w0) ->
  os.stat (fs w) output_dir = None /\ fs w0 !! output_dir = Some (Dir []).
Proof.
  unfold tempfile.mkdtemp.
  destruct (tempfile.mkdtemp_loop _ _ _ _ _) as [[[r names'] f'] tr'] eqn:Hloop.
  intros [= -> <-]. simpl. eapply mkdtemp_loop_fresh, Hloop.
Qed.

Lemma stat_nonempty (f : gmap string node) p n :
  os.stat f p = Some n -> Str.nonempty p = true.
Proof. unfold os.stat. by destruct (Str.nonempty p). Qed.

Lemma filter_singleton_elem {A} (P : A -> bool) (l : list A) x :
  List.filter P l = [x] -> x ∈ l.
Proof.
  intros Hf. apply list_elem_of_In.
  eapply proj1, filter_In. rewrite Hf. by left.
Qed.

(** C1.  When the primary attempt (with the M4A post-processor) raises
    and the fallback attempt (format selection only) succeeds, reports the
    title [title] and leaves exactly one regular file, of [length data]
    bytes, among the entries of the output directory, the download
    operation logs the failure, calls the engine twice, the fallback
    once, and returns the success dict with that title, the path of that entry under the
    output directory and that size; the output directory is the one
    [mkdtemp] has just created, which did not exist before. *)
Theorem fallback_download_succeeds
    url w output_dir w0 e x1 f1 info x2 f2 entries f data readable title :
  tempfile.mkdtemp "ytdlp_" w = (Ok output_dir, w0) ->
  extract_info (ydl_opts (os.path_join output_dir "%(title)s.%(ext)s"))
               url true (ext w0) (fs w0) = (Raise e, x1, f1) ->
  extract_info (ydl_opts_simple (os.path_join output_dir "%(title)s.%(ext)s"))
               url true x1 f1 = (Ok info, x2, f2) ->
  info !! "title" = Some (PStr title) ->
  os.stat f2 output_dir = Some (Dir entries) ->
  List.filter (fun g => is_regular f2 (os.path_join output_dir g)) entries = [f] ->
  os.stat f2 (os.path_join output_dir f) = Some (File data readable) ->
  exists w',
    download_audio url w
    = (Ok (PDict [("success", PBool true);
                  ("title", PStr title);
                  ("filepath", PStr (os.path_join output_dir f));
                  ("size", PInt (Z.of_nat (length data)))]),
       w')
    /\ engine_calls (trace w')
       = engine_calls (trace w)
         ++ [(ydl_opts (os.path_join output_dir "%(title)s.%(ext)s"), url, true);
             (ydl_opts_simple (os.path_join output_dir "%(title)s.%(ext)s"), url, true)]
    /\ EvPrint ("[yt-dlp-server] FFmpeg extraction failed: " +:+ exn_str e)
         ∈ trace w'
    /\ f ∈ entries
    /\ fs w' = f2
    /\ os.stat (fs w) output_dir = None
    /\ fs w0 !! output_dir = Some (Dir []).
Proof.
  intros Hmk Hprim Hfall Htitle Hdir Hone Hfile.
  pose proof (mkdtemp_fresh _ _ _ _ Hmk) as Hfresh.
  destruct (mkdtemp_world _ _ _ _ Hmk) as (_ & _ & _ & Hcalls).
  destruct w0 as [f0 x0 names0 tr0 hb0 wf0]. simpl in Hprim, Hcalls.
  unfold download_audio. unfold bind at 1. rewrite Hmk.
  unfold print, emit, try_except, ydl_extract_info, bind; simpl.
  rewrite Hprim. simpl. rewrite Hfall. simpl.
  edestruct find_downloaded_file_run as (evs & Hrun & Hevs);
    [|rewrite Hrun]; [exact Hdir|].
  simpl. rewrite Hone. simpl.
  rewrite (stat_nonempty _ _ _ Hfile). simpl.
  unfold os.path_getsize, emit, get_fs, bind; simpl.
  rewrite Hfile. simpl.
  unfold dict_get. rewrite Htitle. simpl.
  eexists; split; [reflexivity|]. simpl.
  split; [|split; [|split; [by eapply filter_singleton_elem
                           |split; [reflexivity|exact Hfresh]]]].
  - rewrite !engine_calls_app, Hevs, Hcalls. simpl.
    rewrite !app_nil_r. by rewrite <- !app_assoc.
  - rewrite !elem_of_app, !list_elem_of_singleton. tauto.
Qed.

(** *** The download route *)

Lemma route_download self w parsed url rest :
  command self = "GET" ->
  urllib.urlparse (path self) = Ok parsed ->
  urllib.path parsed = "/download" ->
  urllib.parse_qs (urllib.query parsed) !! "url" = Some (url :: rest) ->
  url ≠ "" ->
  handle_one_request self w
  = try_except
      (result <- download_audio url ;; send_json self result 200)
      (fun e => emit (EvTraceback e) ;;; send_json self (error_body (exn_str e)) 500)
      w.
Proof.
  intros Hc Hp Hpath Hk Hne.
  unfold handle_one_request. rewrite Hc. simpl.
  rewrite (do_GET_parsed _ _ _ Hp), Hpath. simpl.
  unfold bind at 1. rewrite (first_value_some _ _ _ _ _ Hk). simpl.
  by destruct url.
Qed.

Lemma respond_download_ok self w url result w1 :
  headers_buffer w = [] ->
  download_audio url w = (Ok result, w1) ->
  exists w',
    try_except
      (result <- download_audio url ;; send_json self result 200)
      (fun e => emit (EvTraceback e) ;;; send_json self (error_body (exn_str e)) 500)
      w = (Ok tt, w')
    /\ wfile w' = wfile w ++ json_on_wire self 200 result
    /\ trace w' = trace w1 ++ [EvPrint ("[yt-dlp-server] " +:+ requestline self)].
Proof.
  intros Hb Hrun.
  destruct (keeps_wire_download_audio url w) as [Hw Hbuf].
  rewrite Hrun in Hw, Hbuf. simpl in Hw, Hbuf.
  unfold try_except, bind. rewrite Hrun.
  rewrite send_json_fresh by congruence.
  eexists; split; [reflexivity|]. simpl. by rewrite Hw.
Qed.

Lemma respond_download_raise self w url e w1 :
  headers_buffer w = [] ->
  download_audio url w = (Raise e, w1) ->
  exists w',
    try_except
      (result <- download_audio url ;; send_json self result 200)
      (fun e => emit (EvTraceback e) ;;; send_json self (error_body (exn_str e)) 500)
      w = (Ok tt, w')
    /\ wfile w' = wfile w ++ json_on_wire self 500 (error_body (exn_str e))
    /\ trace w' = trace w1 ++ [EvTraceback e;
                               EvPrint ("[yt-dlp-server] " +:+ requestline self)].
Proof.
  intros Hb Hrun.
  destruct (keeps_wire_download_audio url w) as [Hw Hbuf].
  rewrite Hrun in Hw, Hbuf. simpl in Hw, Hbuf.
  unfold try_except, bind. rewrite Hrun. unfold emit.
  rewrite send_json_fresh by (simpl; congruence).
  eexists; split; [reflexivity|]. simpl. rewrite Hw.
  split; [done|]. by rewrite <- app_assoc.
Qed.

(** The download when the scan of the output directory finds nothing,
    after the primary attempt or after the fallback. *)
Lemma download_no_file url w output_dir w0 :
  tempfile.mkdtemp "ytdlp_" w = (Ok output_dir, w0) ->
  (exists info x1 f1 entries,
     extract_info (ydl_opts (os.path_join output_dir "%(title)s.%(ext)s"))
                  url true (ext w0) (fs w0) = (Ok info, x1, f1)
     /\ os.stat f1 output_dir = Some (Dir entries)
     /\ List.filter (fun g => is_regular f1 (os.path_join output_dir g)) entries = [])
  \/ (exists e x1 f1 info x2 f2 entries,
        extract_info (ydl_opts (os.path_join output_dir "%(title)s.%(ext)s"))
                     url true (ext w0) (fs w0) = (Raise e, x1, f1)
        /\ extract_info (ydl_opts_simple (os.path_join output_dir "%(title)s.%(ext)s"))
                        url true x1 f1 = (Ok info, x2, f2)
        /\ os.stat f2 output_dir = Some (Dir entries)
        /\ List.filter (fun g => is_regular f2 (os.path_join output_dir g)) entries = []) ->
  exists w1,
    download_audio url w
    = (Ok (error_body "Download completed but file not found"), w1).
Proof.
  intros Hmk Hcase.
  destruct w0 as [f0 x0 names0 tr0 hb0 wf0]. simpl in Hcase.
  unfold download_audio. unfold bind at 1. rewrite Hmk.
  unfold print, emit, try_except, ydl_extract_info, bind; simpl.
  destruct Hcase as [(info & x1 & f1 & entries & Hprim & Hdir & Hnone)
                    |(e & x1 & f1 & info & x2 & f2 & entries & Hprim & Hfall & Hdir & Hnone)].
  - rewrite Hprim. simpl.
    edestruct find_downloaded_file_run as (evs & Hrun & Hevs);
      [|rewrite Hrun]; [exact Hdir|].
    simpl. rewrite Hnone. simpl. by eexists.
  - rewrite Hprim. simpl. rewrite Hfall. simpl.
    edestruct find_downloaded_file_run as (evs & Hrun & Hevs);
      [|rewrite Hrun]; [exact Hdir|].
    simpl. rewrite Hnone. simpl. by eexists.
Qed.

(** C2, as the code has it.  When an extraction attempt, the primary
    one or the fallback, returns without raising and no entry of the
    output directory is a regular file, the download operation returns
    [{"error": "Download completed but file not found"}], and the router
    sends that dict as the body of a response with status 200; an
    HTTP/0.9 request gets the body alone, without a status. *)
Theorem no_file_soft_error self w parsed url rest output_dir w0 :
  command self = "GET" ->
  headers_buffer w = [] ->
  urllib.urlparse (path self) = Ok parsed ->
  urllib.path parsed = "/download" ->
  urllib.parse_qs (urllib.query parsed) !! "url" = Some (url :: rest) ->
  url ≠ "" ->
  tempfile.mkdtemp "ytdlp_" w = (Ok output_dir, w0) ->
  (exists info x1 f1 entries,
     extract_info (ydl_opts (os.path_join output_dir "%(title)s.%(ext)s"))
                  url true (ext w0) (fs w0) = (Ok info, x1, f1)
     /\ os.stat f1 output_dir = Some (Dir entries)
     /\ List.filter (fun g => is_regular f1 (os.path_join output_dir g)) entries = [])
  \/ (exists e x1 f1 info x2 f2 entries,
        extract_info (ydl_opts (os.path_join output_dir "%(title)s.%(ext)s"))
                     url true (ext w0) (fs w0) = (Raise e, x1, f1)
        /\ extract_info (ydl_opts_simple (os.path_join output_dir "%(title)s.%(ext)s"))
                        url true x1 f1 = (Ok info, x2, f2)
        /\ os.stat f2 output_dir = Some (Dir entries)
        /\ List.filter (fun g => is_regular f2 (os.path_join output_dir g)) entries = []) ->
  (exists w1,
     download_audio url w
     = (Ok (PDict [("error", PStr "Download completed but file not found")]), w1))
  /\ (exists w',
        handle_one_request self w = (Ok tt, w')
        /\ wfile w' = wfile w ++
             (if has_headers self
              then [HeaderBlock [StatusLine 200;
                                 HeaderLine "Content-Type" "application/json";
                                 HeaderLine "Access-Control-Allow-Origin" "*"]]
              else [])
             ++ [Body (list_byte_of_string
                         ("{" +:+ quoted "error" +:+ ": "
                          +:+ quoted "Download completed but file not found" +:+ "}"))]).
Proof.
  intros Hc Hb Hp Hpath Hk Hne Hmk Hcase.
  destruct (download_no_file url w output_dir w0 Hmk Hcase) as (w1 & Hrun).
  split; [by exists w1|].
  rewrite (route_download _ _ _ _ _ Hc Hp Hpath Hk Hne).
  destruct (respond_download_ok self w url _ w1 Hb Hrun) as (w' & Hresp & Hw & _).
  exists w'. split; [exact Hresp|]. rewrite Hw. unfold json_on_wire.
  by destruct (has_headers self).
Qed.

(** C3, as the code has it.  When the primary attempt and the fallback
    attempt both raise, the download operation calls the engine these two
    times and no more, the fallback's exception leaves it uncaught, and
    the router answers with the body [{"error": str(e)}] for that
    exception [e], after a header block with status 500 unless the
    request is HTTP/0.9, which gets the body alone. *)
Theorem both_attempts_fail self w parsed url rest output_dir w0 e1 x1 f1 e2 x2 f2 :
  command self = "GET" ->
  headers_buffer w = [] ->
  urllib.urlparse (path self) = Ok parsed ->
  urllib.path parsed = "/download" ->
  urllib.parse_qs (urllib.query parsed) !! "url" = Some (url :: rest) ->
  url ≠ "" ->
  tempfile.mkdtemp "ytdlp_" w = (Ok output_dir, w0) ->
  extract_info (ydl_opts (os.path_join output_dir "%(title)s.%(ext)s"))
               url true (ext w0) (fs w0) = (Raise e1, x1, f1) ->
  extract_info (ydl_opts_simple (os.path_join output_dir "%(title)s.%(ext)s"))
               url true x1 f1 = (Raise e2, x2, f2) ->
  (exists w1, download_audio url w = (Raise e2, w1))
  /\ (exists w',
        handle_one_request self w = (Ok tt, w')
        /\ wfile w' = wfile w ++
             (if has_headers self
              then [HeaderBlock [StatusLine 500;
                                 HeaderLine "Content-Type" "application/json";
                                 HeaderLine "Access-Control-Allow-Origin" "*"]]
              else [])
             ++ [Body (Json.dumps_bytes (PDict [("error", PStr (exn_str e2))]))]
        /\ engine_calls (trace w')
           = engine_calls (trace w)
             ++ [(ydl_opts (os.path_join output_dir "%(title)s.%(ext)s"), url, true);
                 (ydl_opts_simple (os.path_join output_dir "%(title)s.%(ext)s"),
                  url, true)]).
Proof.
  intros Hc Hb Hp Hpath Hk Hne Hmk Hprim Hfall.
  destruct (mkdtemp_world _ _ _ _ Hmk) as (_ & _ & _ & Hcalls).
  assert (Hrun : exists w1,
             download_audio url w = (Raise e2, w1)
             /\ engine_calls (trace w1)
                = engine_calls (trace w)
                  ++ [(ydl_opts (os.path_join output_dir "%(title)s.%(ext)s"), url, true);
                      (ydl_opts_simple (os.path_join output_dir "%(title)s.%(ext)s"),
                       url, true)]).
  { destruct w0 as [f0 x0 names0 tr0 hb0 wf0]. simpl in Hprim, Hcalls.
    unfold download_audio. unfold bind at 1. rewrite Hmk.
    unfold print, emit, try_except, ydl_extract_info, bind; simpl.
    rewrite Hprim. simpl. rewrite Hfall. simpl.
    eexists; split; [reflexivity|]. simpl.
    rewrite !engine_calls_app, Hcalls. simpl.
    rewrite !app_nil_r. by rewrite <- !app_assoc. }
  destruct Hrun as (w1 & Hrun & Htr).
  split; [by exists w1|].
  rewrite (route_download _ _ _ _ _ Hc Hp Hpath Hk Hne).
  destruct (respond_download_raise self w url e2 w1 Hb Hrun) as (w' & Hresp & Hw & Htr').
  exists w'. split; [exact Hresp|]. split.
  { rewrite Hw. unfold json_on_wire. by destruct (has_headers self). }
  rewrite Htr', engine_calls_app, Htr. simpl. by rewrite app_nil_r.
Qed.

End Properties.

(** * Further properties of the handler *)

Section Coverage.

Context {X : Type} {RT : PyRuntime} {YDL : YoutubeDL X}.

Implicit Types (w : World X) (self : Request) (tr : list event).

#[local] Arguments os.stat : simpl never.
#[local] Arguments os.path_join : simpl never.
#[local] Arguments String.append : simpl never.

(** ** Steps that stay inside the server *)

Lemma local_step_ret {A} (a : A) : local_step (ret (X:=X) a).
Proof. intros w. exists []. by rewrite logged_nil. Qed.

Lemma local_step_raise {A} e : local_step (raise (X:=X) (A:=A) e).
Proof. intros w. exists []. by rewrite logged_nil. Qed.

Lemma local_step_emit e : engine_calls [e] = [] -> local_step (emit (X:=X) e).
Proof. intros He w. by exists [e]. Qed.

Lemma local_step_get_fs : local_step (get_fs (X:=X)).
Proof. intros w. exists []. by rewrite logged_nil. Qed.

Lemma local_step_bind {A B} (m : M X A) (k : A -> M X B) :
  local_step m -> (forall a, local_step (k a)) -> local_step (bind m k).
Proof.
  intros Hm Hk w. unfold bind. destruct (Hm w) as (evs & Hw & Hevs).
  destruct (m w) as [[a|e] w1]; simpl in *; [|by exists evs].
  destruct (Hk a w1) as (evs' & Hw' & Hevs'). subst w1.
  exists (evs ++ evs'). rewrite Hw', logged_logged, engine_calls_app, Hevs, Hevs'.
  done.
Qed.

Lemma local_step_try {A} (m : M X A) (h : exn -> M X A) :
  local_step m -> (forall e, local_step (h e)) -> local_step (try_except m h).
Proof.
  intros Hm Hh w. unfold try_except. destruct (Hm w) as (evs & Hw & Hevs).
  destruct (m w) as [[a|e] w1]; simpl in *; [by exists evs|].
  destruct (Hh e w1) as (evs' & Hw' & Hevs'). subst w1.
  exists (evs ++ evs'). rewrite Hw', logged_logged, engine_calls_app, Hevs, Hevs'.
  done.
Qed.

Ltac local_go :=
  repeat first [ apply local_step_ret | apply local_step_raise
               | apply local_step_get_fs
               | apply local_step_emit; reflexivity
               | apply local_step_bind; [|intros ?]
               | apply local_step_try; [|intros ?] ].

Lemma local_step_isfile p : local_step (os.path_isfile (X:=X) p).
Proof. unfold os.path_isfile. local_go. Qed.

Lemma local_step_exists p : local_step (os.path_exists (X:=X) p).
Proof. unfold os.path_exists. local_go. Qed.

Lemma local_step_getsize p : local_step (os.path_getsize (X:=X) p).
Proof.
  unfold os.path_getsize. local_go. destruct (os.stat _ _) as [[]|]; local_go.
Qed.

Lemma local_step_listdir p : local_step (os.listdir (X:=X) p).
Proof.
  unfold os.listdir. local_go. destruct (os.stat _ _) as [[]|]; local_go.
Qed.


Lemma local_step_first_file dir entries : local_step (first_file (X:=X) dir entries).
Proof.
  induction entries as [|f rest IH]; simpl; [local_go|].
  apply local_step_bind; [apply local_step_isfile|].
  intros []; [local_go | exact IH].
Qed.

Lemma local_step_find dir : local_step (find_downloaded_file (X:=X) dir).
Proof.
  unfold find_downloaded_file.
  apply local_step_bind; [apply local_step_listdir|].
  intros entries. apply local_step_first_file.
Qed.

(** ** The scan of the output directory *)

(** X5.  The scan returns the first entry, in listing order, that is a
    regular file; entries before it that are directories or name nothing
    are skipped, and no entry after it is examined. *)
Theorem scan_stops_at_first_file dir pre f post w :
  Forall (fun g => is_regular (fs w) (os.path_join dir g) = false) pre ->
  is_regular (fs w) (os.path_join dir f) = true ->
  first_file dir (pre ++ f :: post) w
  = (Ok (Some (os.path_join dir f)),
     logged w (map (fun g => EvFs OpIsfile (os.path_join dir g)) (pre ++ [f]))).
Proof.
  intros Hpre Hf. revert w Hpre Hf.
  induction pre as [|g pre IH]; intros w Hpre Hf; simpl.
  - unfold bind. rewrite path_isfile_run, Hf. reflexivity.
  - inversion Hpre as [|? ? Hg Hpre']; subst.
    unfold bind. rewrite path_isfile_run, Hg.
    rewrite (IH (logged w [EvFs OpIsfile (os.path_join dir g)]) Hpre' Hf).
    by rewrite logged_logged.
Qed.

(** The scan of a directory without a regular file examines every entry
    and finds nothing. *)
Lemma scan_finds_nothing dir entries w :
  Forall (fun g => is_regular (fs w) (os.path_join dir g) = false) entries ->
  first_file dir entries w
  = (Ok None, logged w (map (fun g => EvFs OpIsfile (os.path_join dir g)) entries)).
Proof.
  revert w. induction entries as [|g rest IH]; intros w Hall; simpl.
  - by rewrite logged_nil.
  - inversion Hall as [|? ? Hg Hrest]; subst.
    unfold bind. rewrite path_isfile_run, Hg.
    rewrite (IH (logged w [EvFs OpIsfile (os.path_join dir g)]) Hrest).
    by rewrite logged_logged.
Qed.

(** ** The file route *)

(** X1.  A GET request to [/file] whose path names nothing is answered
    with the body [{"error": "File not found"}], after a header block with
    status 404 unless the request is HTTP/0.9; the only filesystem access
    is the existence test, the file is never opened. *)
Theorem file_missing_404 self w parsed p rest :
  command self = "GET" ->
  headers_buffer w = [] ->
  urllib.urlparse (path self) = Ok parsed ->
  urllib.path parsed = "/file" ->
  urllib.parse_qs (urllib.query parsed) !! "path" = Some (p :: rest) ->
  p ≠ "" ->
  os.stat (fs w) p = None ->
  exists w',
    handle_one_request self w = (Ok tt, w')
    /\ wfile w' = wfile w ++ json_on_wire self 404 (error_body "File not found")
    /\ fs_accesses (trace w') = fs_accesses (trace w) ++ [(OpExists, p)]
    /\ engine_calls (trace w') = engine_calls (trace w)
    /\ fs w' = fs w.
Proof.
  intros Hc Hb Hp Hpath Hk Hne Hstat.
  rewrite (route_file _ _ _ _ _ Hc Hp Hpath Hk Hne).
  destruct w as [f x names tr buf wf]. simpl in Hb, Hstat. subst buf.
  unfold os.path_exists, get_fs, emit, bind; simpl. rewrite Hstat.
  rewrite send_json_fresh by done.
  eexists; split; [reflexivity|]. simpl.
  rewrite !fs_accesses_app, !engine_calls_app. simpl.
  by rewrite !app_nil_r.
Qed.


(** ** The info route *)

Lemma info_route_run self w parsed url rest r x' f' :
  command self = "GET" ->
  headers_buffer w = [] ->
  urllib.urlparse (path self) = Ok parsed ->
  urllib.path parsed = "/info" ->
  urllib.parse_qs (urllib.query parsed) !! "url" = Some (url :: rest) ->
  url ≠ "" ->
  extract_info (PDict [("quiet", PBool true); ("no_warnings", PBool true);
                       ("extract_flat", PBool false)])
               url false (ext w) (fs w) = (r, x', f') ->
  exists w',
    handle_one_request self w = (Ok tt, w')
    /\ wfile w' = wfile w ++
         match r with
         | Ok info =>
             json_on_wire self 200
               (PDict [("title", default (PStr "Unknown") (info !! "title"));
                       ("author", default (PStr "Unknown") (info !! "uploader"));
                       ("duration", default (PInt 0) (info !! "duration"));
                       ("thumbnail", default (PStr "") (info !! "thumbnail"));
                       ("id", default (PStr "") (info !! "id"))])
         | Raise e => json_on_wire self 500 (error_body (exn_str e))
         end
    /\ trace w' = trace w ++
         [EvEngine (PDict [("quiet", PBool true); ("no_warnings", PBool true);
                           ("extract_flat", PBool false)]) url false;
          EvPrint ("[yt-dlp-server] " +:+ requestline self)]
    /\ fs w' = f' /\ ext w' = x'.
Proof.
  intros Hc Hb Hp Hpath Hk Hne He.
  unfold handle_one_request. rewrite Hc. simpl.
  rewrite (do_GET_parsed _ _ _ Hp), Hpath. simpl.
  unfold bind at 1. rewrite (first_value_some _ _ _ _ _ Hk). simpl.
  destruct url as [|c url]; [done|]. simpl.
  unfold try_except, get_video_info, bind.
  rewrite (ydl_extract_info_run _ _ _ _ _ _ _ He).
  destruct r as [info|e]; cbv beta iota; unfold ret; cbv beta iota;
    rewrite send_json_fresh by done;
    (eexists; split; [reflexivity|]); unfold responded; cbn [wfile trace fs ext];
    by rewrite <- app_assoc.
Qed.

(** X3.  A GET request to [/info] with a [url] makes exactly one engine
    call, without download and with the quiet options, and mirrors its
    outcome: the projected record with status 200 when it returns, the
    exception's text as a JSON error body with status 500 when it raises;
    an HTTP/0.9 request gets the same body without status line or
    headers.  The server itself touches no file and prints no
    traceback. *)
Theorem info_route_mirrors_engine self w parsed url rest r x' f' :
  command self = "GET" ->
  headers_buffer w = [] ->
  urllib.urlparse (path self) = Ok parsed ->
  urllib.path parsed = "/info" ->
  urllib.parse_qs (urllib.query parsed) !! "url" = Some (url :: rest) ->
  url ≠ "" ->
  extract_info (PDict [("quiet", PBool true); ("no_warnings", PBool true);
                       ("extract_flat", PBool false)])
               url false (ext w) (fs w) = (r, x', f') ->
  exists w',
    handle_one_request self w = (Ok tt, w')
    /\ wfile w' = wfile w ++
         match r with
         | Ok info =>
             json_on_wire self 200
               (PDict [("title", default (PStr "Unknown") (info !! "title"));
                       ("author", default (PStr "Unknown") (info !! "uploader"));
                       ("duration", default (PInt 0) (info !! "duration"));
                       ("thumbnail", default (PStr "") (info !! "thumbnail"));
                       ("id", default (PStr "") (info !! "id"))])
         | Raise e => json_on_wire self 500 (error_body (exn_str e))
         end
    /\ trace w' = trace w ++
         [EvEngine (PDict [("quiet", PBool true); ("no_warnings", PBool true);
                           ("extract_flat", PBool false)]) url false;
          EvPrint ("[yt-dlp-server] " +:+ requestline self)]
    /\ fs w' = f' /\ ext w' = x'.
Proof. apply info_route_run. Qed.

(** ** More of the download *)

(** X4.  When the primary attempt returns and the output directory
    lists at least one regular file, the download succeeds with the first
    such file in listing order, without a fallback attempt: the engine is
    called once.  The title is the engine's, or ["audio"] when its result
    has none. *)
Theorem primary_download_succeeds
    url w output_dir w0 info x1 f1 entries f others data readable :
  tempfile.mkdtemp "ytdlp_" w = (Ok output_dir, w0) ->
  extract_info (ydl_opts (os.path_join output_dir "%(title)s.%(ext)s"))
               url true (ext w0) (fs w0) = (Ok info, x1, f1) ->
  os.stat f1 output_dir = Some (Dir entries) ->
  List.filter (fun g => is_regular f1 (os.path_join output_dir g)) entries
  = f :: others ->
  os.stat f1 (os.path_join output_dir f) = Some (File data readable) ->
  exists w',
    download_audio url w
    = (Ok (PDict [("success", PBool true);
                  ("title", default (PStr "audio") (info !! "title"));
                  ("filepath", PStr (os.path_join output_dir f));
                  ("size", PInt (Z.of_nat (length data)))]),
       w')
    /\ engine_calls (trace w')
       = engine_calls (trace w)
         ++ [(ydl_opts (os.path_join output_dir "%(title)s.%(ext)s"), url, true)]
    /\ fs w' = f1.
Proof.
  intros Hmk Hprim Hdir Hfirst Hfile.
  destruct (mkdtemp_world _ _ _ _ Hmk) as (_ & _ & _ & Hcalls).
  destruct w0 as [f0 x0 names0 tr0 hb0 wf0]. simpl in Hprim, Hcalls.
  unfold download_audio. unfold bind at 1. rewrite Hmk.
  unfold print, emit, try_except, ydl_extract_info, bind; simpl.
  rewrite Hprim. simpl.
  edestruct (find_downloaded_file_run (X:=X)) as (evs & Hrun & Hevs);
    [|rewrite Hrun]; [exact Hdir|].
  simpl. rewrite Hfirst. simpl.
  rewrite (stat_nonempty _ _ _ Hfile). simpl.
  unfold os.path_getsize, emit, get_fs, bind; simpl.
  rewrite Hfile. simpl.
  eexists; split; [reflexivity|]. simpl. split; [|reflexivity].
  rewrite !engine_calls_app, Hevs, Hcalls. simpl.
  by rewrite ?app_nil_r, <- ?app_assoc.
Qed.

(** X14.  A missing file is no reason to retry: when the primary
    attempt returns and the output directory lists no regular file, the
    download returns the soft error after that single engine call; the
    fallback is tried only after an exception. *)
Theorem no_file_no_retry url w output_dir w0 info x1 f1 entries :
  tempfile.mkdtemp "ytdlp_" w = (Ok output_dir, w0) ->
  extract_info (ydl_opts (os.path_join output_dir "%(title)s.%(ext)s"))
               url true (ext w0) (fs w0) = (Ok info, x1, f1) ->
  os.stat f1 output_dir = Some (Dir entries) ->
  List.filter (fun g => is_regular f1 (os.path_join output_dir g)) entries = [] ->
  exists w',
    download_audio url w
    = (Ok (error_body "Download completed but file not found"), w')
    /\ engine_calls (trace w')
       = engine_calls (trace w)
         ++ [(ydl_opts (os.path_join output_dir "%(title)s.%(ext)s"), url, true)]
    /\ fs w' = f1.
Proof.
  intros Hmk Hprim Hdir Hnone.
  destruct (mkdtemp_world _ _ _ _ Hmk) as (_ & _ & _ & Hcalls).
  destruct w0 as [f0 x0 names0 tr0 hb0 wf0]. simpl in Hprim, Hcalls.
  unfold download_audio. unfold bind at 1. rewrite Hmk.
  unfold print, emit, try_except, ydl_extract_info, bind; simpl.
  rewrite Hprim. simpl.
  edestruct (find_downloaded_file_run (X:=X)) as (evs & Hrun & Hevs);
    [|rewrite Hrun]; [exact Hdir|].
  simpl. rewrite Hnone. simpl.
  eexists; split; [reflexivity|]. simpl. split; [|reflexivity].
  rewrite !engine_calls_app, Hevs, Hcalls. simpl.
  by rewrite ?app_nil_r, <- ?app_assoc.
Qed.

Lemma mkdtemp_loop_raise_fs dir prefix names f tr e names' f' tr' :
  tempfile.mkdtemp_loop dir prefix names f tr = (Raise e, names', f', tr') ->
  f' = f.
Proof.
  revert tr. induction names as [|name names IH]; intros tr; simpl.
  - by intros [= _ _ <- _].
  - destruct (os.stat f dir) as [[]|].
    + by intros [= _ _ <- _].
    + destruct (os.stat f _); [apply IH | done].
    + by intros [= _ _ <- _].
Qed.

(** X7.  When no temporary directory can be made, the download raises
    that failure before any engine call and with the filesystem as it
    was, and the router answers with its text as a JSON error body, after
    a header block with status 500 unless the request is HTTP/0.9. *)
Theorem mkdtemp_failure_500 self w parsed url rest e w0 :
  command self = "GET" ->
  headers_buffer w = [] ->
  urllib.urlparse (path self) = Ok parsed ->
  urllib.path parsed = "/download" ->
  urllib.parse_qs (urllib.query parsed) !! "url" = Some (url :: rest) ->
  url ≠ "" ->
  tempfile.mkdtemp "ytdlp_" w = (Raise e, w0) ->
  download_audio url w = (Raise e, w0)
  /\ fs w0 = fs w
  /\ exists w',
       handle_one_request self w = (Ok tt, w')
       /\ wfile w' = wfile w ++ json_on_wire self 500 (error_body (exn_str e))
       /\ engine_calls (trace w') = engine_calls (trace w).
Proof.
  intros Hc Hb Hp Hpath Hk Hne Hmk.
  assert (Hrun : download_audio url w = (Raise e, w0)).
  { unfold download_audio. unfold bind at 1. by rewrite Hmk. }
  destruct (mkdtemp_world _ _ _ _ Hmk) as (_ & _ & _ & Hcalls).
  split; [exact Hrun|]. split.
  - revert Hmk. unfold tempfile.mkdtemp.
    destruct (tempfile.mkdtemp_loop _ _ _ _ _) as [[[r names'] f'] tr'] eqn:Hloop.
    intros [= -> <-]. simpl. eapply mkdtemp_loop_raise_fs, Hloop.
  - rewrite (route_download _ _ _ _ _ Hc Hp Hpath Hk Hne).
    destruct (respond_download_raise self w url e w0 Hb Hrun) as (w' & Hresp & Hw & Htr).
    exists w'. split; [exact Hresp|]. split; [exact Hw|].
    rewrite Htr, engine_calls_app, Hcalls. simpl. by rewrite app_nil_r.
Qed.

(** *** Nothing is cleaned up *)

Lemma keeps_fs_local {A} (m : M X A) : local_step m -> keeps_fs m.
Proof. intros Hm w. destruct (Hm w) as (evs & -> & _). reflexivity. Qed.

Lemma keeps_fs_bind {A B} (m : M X A) (k : A -> M X B) :
  keeps_fs m -> (forall a, keeps_fs (k a)) -> keeps_fs (bind m k).
Proof.
  intros Hm Hk w. unfold bind. specialize (Hm w).
  destruct (m w) as [[a|e] w1]; simpl in *; [|done].
  by rewrite Hk.
Qed.

Lemma keeps_fs_try {A} (m : M X A) (h : exn -> M X A) :
  keeps_fs m -> (forall e, keeps_fs (h e)) -> keeps_fs (try_except m h).
Proof.
  intros Hm Hh w. unfold try_except. specialize (Hm w).
  destruct (m w) as [[a|e] w1]; simpl in *; [done|].
  by rewrite Hh.
Qed.

Lemma keeps_fs_engine opts url download :
  fs_neutral YDL -> keeps_fs (ydl_extract_info opts url download).
Proof.
  intros Hn w. unfold ydl_extract_info, bind, emit; simpl.
  specialize (Hn opts url download (ext w) (fs w)).
  unfold extract_info.
  destruct (YDL opts url download (ext w) (fs w)) as [[r x'] f']. exact Hn.
Qed.

(** X8.  The server removes nothing.  With an engine that leaves the
    filesystem alone, the filesystem after a download, whatever its
    outcome, is the one [mkdtemp] left: the directory it made is still
    there, and empty. *)
Theorem download_never_cleans_up url w :
  fs_neutral YDL ->
  fs (download_audio url w).2 = fs (tempfile.mkdtemp "ytdlp_" w).2
  /\ forall output_dir w0,
       tempfile.mkdtemp "ytdlp_" w = (Ok output_dir, w0) ->
       fs (download_audio url w).2 !! output_dir = Some (Dir []).
Proof.
  intros Hn.
  assert (Hfs : fs (download_audio url w).2 = fs (tempfile.mkdtemp "ytdlp_" w).2).
  { unfold download_audio. unfold bind at 1.
    destruct (tempfile.mkdtemp "ytdlp_" w) as [[output_dir|e] w0]; [|reflexivity].
    simpl.
    match goal with |- fs (?m w0).2 = _ => enough (keeps_fs m) as Hk by apply Hk end.
    apply keeps_fs_bind; [apply keeps_fs_local; unfold print; local_go|]. intros _.
    apply keeps_fs_bind.
    - apply keeps_fs_try.
      + apply keeps_fs_bind; [by apply keeps_fs_engine|]. intros info.
        apply keeps_fs_local. apply local_step_bind; [apply local_step_find|].
        intros ?. local_go.
      + intros e. apply keeps_fs_bind; [apply keeps_fs_local; unfold print; local_go|].
        intros _.
        apply keeps_fs_bind; [apply keeps_fs_local; unfold print; local_go|].
        intros _.
        apply keeps_fs_bind; [by apply keeps_fs_engine|]. intros info.
        apply keeps_fs_local. apply local_step_bind; [apply local_step_find|].
        intros ?. local_go.
    - intros [downloaded_file title]. apply keeps_fs_local.
      destruct (is_missing downloaded_file); [local_go|].
      apply local_step_bind; [apply local_step_getsize|]. intros size.
      unfold print. local_go. }
  split; [exact Hfs|].
  intros output_dir w0 Hmk. rewrite Hfs, Hmk. simpl.
  eapply mkdtemp_fresh, Hmk.
Qed.

(** *** A failing scan *)

Lemma listdir_raises dir w :
  (forall entries, os.stat (fs w) dir ≠ Some (Dir entries)) ->
  exists e,
    find_downloaded_file dir w = (Raise e, logged w [EvFs OpListdir dir])
    /\ exn_class e ∈ ["FileNotFoundError"; "NotADirectoryError"].
Proof.
  intros Hno. unfold find_downloaded_file, os.listdir, bind, emit, get_fs; simpl.
  destruct (os.stat (fs w) dir) as [[data r|entries]|] eqn:Hst.
  - eexists; split; [reflexivity|]. simpl. set_solver.
  - by destruct (Hno entries).
  - eexists; split; [reflexivity|]. simpl. set_solver.
Qed.

Lemma local_step_finish (found : option string * pyval) :
  local_step (X:=X)
    (let '(downloaded_file, title) := found in
     if is_missing downloaded_file then
       ret (error_body "Download completed but file not found")
     else
       let file := default "" downloaded_file in
       size <- os.path_getsize file ;;
       print ("[yt-dlp-server] Downloaded: " +:+ file +:+ " ("
              +:+ pretty size +:+ " bytes)") ;;;
       ret (PDict [("success", PBool true);
                   ("title", title);
                   ("filepath", PStr file);
                   ("size", PInt size)])).
Proof.
  destruct found as [downloaded_file title].
  destruct (is_missing downloaded_file); [local_go|].
  apply local_step_bind; [apply local_step_getsize|]. intros size.
  unfold print. local_go.
Qed.

(** X6.  The scan is inside the [try]: when the primary attempt returns
    but the output directory can no longer be listed, the failure of the
    listing is logged as an FFmpeg failure and the fallback attempt is
    made all the same, so the engine is called twice; the server changes
    nothing on the filesystem afterwards. *)
Theorem scan_failure_triggers_fallback url w output_dir w0 info x1 f1 r2 x2 f2 :
  tempfile.mkdtemp "ytdlp_" w = (Ok output_dir, w0) ->
  extract_info (ydl_opts (os.path_join output_dir "%(title)s.%(ext)s"))
               url true (ext w0) (fs w0) = (Ok info, x1, f1) ->
  (forall entries, os.stat f1 output_dir ≠ Some (Dir entries)) ->
  extract_info (ydl_opts_simple (os.path_join output_dir "%(title)s.%(ext)s"))
               url true x1 f1 = (r2, x2, f2) ->
  engine_calls (trace (download_audio url w).2)
  = engine_calls (trace w)
    ++ [(ydl_opts (os.path_join output_dir "%(title)s.%(ext)s"), url, true);
        (ydl_opts_simple (os.path_join output_dir "%(title)s.%(ext)s"), url, true)]
  /\ (exists e,
        exn_class e ∈ ["FileNotFoundError"; "NotADirectoryError"]
        /\ EvPrint ("[yt-dlp-server] FFmpeg extraction failed: " +:+ exn_str e)
           ∈ trace (download_audio url w).2)
  /\ fs (download_audio url w).2 = f2.
Proof.
  intros Hmk Hprim Hno Hfall.
  destruct (mkdtemp_world _ _ _ _ Hmk) as (_ & _ & _ & Hcalls).
  destruct w0 as [f0 x0 names0 tr0 hb0 wf0]. simpl in Hprim, Hcalls.
  destruct (listdir_raises output_dir
              (mkWorld f1 x1 names0
                 (tr0 ++ [EvPrint ("[yt-dlp-server] Downloading to: " +:+ output_dir);
                          EvEngine (ydl_opts (os.path_join output_dir "%(title)s.%(ext)s"))
                                   url true])
                 hb0 wf0) Hno) as (e & Hfind & Hcls).
  set (tr5 := tr0 ++ [EvPrint ("[yt-dlp-server] Downloading to: " +:+ output_dir);
                      EvEngine (ydl_opts (os.path_join output_dir "%(title)s.%(ext)s"))
                               url true;
                      EvFs OpListdir output_dir;
                      EvPrint ("[yt-dlp-server] FFmpeg extraction failed: "
                               +:+ exn_str e);
                      EvPrint "[yt-dlp-server] Trying without post-processing...";
                      EvEngine (ydl_opts_simple
                                  (os.path_join output_dir "%(title)s.%(ext)s"))
                               url true]).
  assert (Hend : exists evs,
             (download_audio url w).2 = mkWorld f2 x2 names0 (tr5 ++ evs) hb0 wf0
             /\ engine_calls evs = []).
  { unfold download_audio. unfold bind at 1. rewrite Hmk. cbv beta iota.
    unfold bind at 1. unfold print at 1, emit at 1. cbv beta iota.
    cbn [fs ext tmp_names trace headers_buffer wfile].
    unfold bind at 1. unfold try_except at 1. unfold bind at 1.
    erewrite ydl_extract_info_run by exact Hprim.
    cbn [fs ext tmp_names trace headers_buffer wfile]. cbv beta iota.
    unfold bind at 1. rewrite <- app_assoc. cbn [app].
    rewrite Hfind. cbv beta iota.
    unfold bind at 1. unfold print at 1, emit at 1. cbv beta iota.
    unfold bind at 1. unfold print at 1, emit at 1. cbv beta iota.
    unfold logged. cbn [fs ext tmp_names trace headers_buffer wfile].
    unfold bind at 1.
    erewrite ydl_extract_info_run by exact Hfall.
    cbn [fs ext tmp_names trace headers_buffer wfile].
    rewrite <- !app_assoc. cbn [app]. fold tr5.
    destruct r2 as [info2|e2]; cbv beta iota.
    - match goal with
      | |- context [bind ?m ?k ?W] =>
          assert (Hloc : local_step (bind m k))
            by (apply local_step_bind; [apply local_step_find|]; intros ?; local_go);
          destruct (Hloc W) as (evs & HW & Hevs);
          destruct (bind m k W) as [[found|e3] W6]
      end; simpl in HW; subst W6; cbv beta iota.
      + destruct (local_step_finish found
                    (logged (mkWorld f2 x2 names0 tr5 hb0 wf0) evs))
          as (evs' & HW' & Hevs').
        exists (evs ++ evs'). split.
        * rewrite app_assoc. exact HW'.
        * by rewrite engine_calls_app, Hevs, Hevs'.
      + by exists evs.
    - exists []. by rewrite app_nil_r. }
  destruct Hend as (evs & -> & Hevs). simpl.
  split; [|split; [|reflexivity]].
  - subst tr5. rewrite !engine_calls_app, Hevs, Hcalls. simpl. by rewrite app_nil_r.
  - exists e. split; [exact Hcls|]. subst tr5.
    rewrite !elem_of_app, !elem_of_cons. tauto.
Qed.

(** ** Repeated parameters *)

Lemma foldl_add_pair_lookup (l : list (string * string)) key :
  forall m : gmap string (list string),
    foldl urllib.add_pair m l !! key
    = match m !! key, values_of key l with
      | Some old, vs => Some (old ++ vs)
      | None, [] => None
      | None, vs => Some vs
      end.
Proof.
  induction l as [|[name value] l IH]; intros m; simpl.
  - unfold values_of; simpl. destruct (m !! key); [by rewrite app_nil_r | done].
  - rewrite IH. unfold values_of, urllib.add_pair. simpl.
    destruct (String.eqb_spec name key) as [->|Hne]; simpl.
    + destruct (m !! key) as [old|] eqn:Hm; rewrite lookup_insert_eq.
      * by rewrite <- app_assoc.
      * reflexivity.
    + destruct (m !! name); by rewrite lookup_insert_ne.
Qed.

Lemma first_value_parse_qs qs key w :
  first_value (urllib.parse_qs qs) key w
  = (Ok (head (values_of key (urllib.parse_qsl qs))), w).
Proof.
  unfold first_value, urllib.parse_qs.
  rewrite foldl_add_pair_lookup, lookup_empty.
  by destruct (values_of key (urllib.parse_qsl qs)).
Qed.

(** X10.  [params.get(key, [None])[0]] on a parsed query never raises:
    it is the value of the first field named [key] with a non-empty
    value, in query order, and [None] when there is no such field; later
    occurrences of the parameter are ignored. *)
Theorem first_value_of_query qs key w :
  first_value (urllib.parse_qs qs) key w
  = (Ok (head (values_of key (urllib.parse_qsl qs))), w).
Proof. apply first_value_parse_qs. Qed.

(** ** One answer per request *)















(** ** Cross-origin headers *)


End Coverage.

(** * Targets, bodies and the local address *)

Section Wire.

Context {X : Type} {RT : PyRuntime} {YDL : YoutubeDL X}.

Implicit Types (w : World X) (self : Request).

(** ** From the request target to the engine *)

Lemma partition_absent c s : Str.contains c s = false -> Str.partition c s = None.
Proof.
  induction s as [|a s IH]; simpl; [done|].
  destruct (Ascii.eqb a c); simpl; [done|]. intros Hs. by rewrite IH.
Qed.

Lemma split_absent c s : Str.contains c s = false -> Str.split c s = [s].
Proof.
  induction s as [|a s IH]; simpl; [done|].
  destruct (Ascii.eqb a c); simpl; [done|]. intros Hs. by rewrite IH.
Qed.

Lemma remove_char_absent c s : Str.contains c s = false -> Str.remove_char c s = s.
Proof.
  induction s as [|a s IH]; simpl; [done|].
  destruct (Ascii.eqb a c); simpl; [done|]. intros Hs. by rewrite IH.
Qed.

Lemma contains_percent_replace_plus s :
  Str.contains "%" (Str.replace_char "+" " " s) = Str.contains "%" s.
Proof.
  induction s as [|a s IH]; simpl; [done|]. rewrite IH.
  destruct (Ascii.eqb_spec a "+") as [->|]; reflexivity.
Qed.

Lemma nonempty_replace_char a b s :
  Str.nonempty (Str.replace_char a b s) = Str.nonempty s.
Proof. by destruct s. Qed.

Lemma plain_value_parts v :
  plain_value v = true ->
  Str.nonempty v = true
  /\ Str.contains "#" v = false /\ Str.contains "&" v = false
  /\ Str.contains "%" v = false /\ Str.contains "009" v = false
  /\ Str.contains "010" v = false /\ Str.contains "013" v = false.
Proof.
  unfold plain_value. rewrite !andb_true_iff, !negb_true_iff. tauto.
Qed.

Lemma urlparse_info_target v :
  plain_value v = true ->
  urllib.urlparse ("/info?url=" +:+ v)
  = Ok {| urllib.scheme := ""; urllib.netloc := ""; urllib.path := "/info";
          urllib.params := ""; urllib.query := "url=" +:+ v;
          urllib.fragment := "" |}.
Proof.
  intros (Hne & Hhash & Hamp & Hpct & Htab & Hlf & Hcr)%plain_value_parts.
  unfold urllib.urlparse, urllib.urlsplit. simpl.
  change ("" +:+ v) with v.
  rewrite (remove_char_absent "009" v Htab), (remove_char_absent "010" v Hlf),
    (remove_char_absent "013" v Hcr).
  assert (Hsch : forall s, urllib.split_scheme (String "/" s) = ("", String "/" s)).
  { intros s0. unfold urllib.split_scheme. simpl.
    by destruct (Str.partition ":" s0) as [[l r]|]. }
  rewrite Hsch. simpl.
  rewrite (partition_absent "#" v Hhash). simpl.
  reflexivity.
Qed.

Lemma parse_qs_single_url v :
  plain_value v = true ->
  urllib.parse_qs ("url=" +:+ v) !! "url" = Some [Str.replace_char "+" " " v].
Proof.
  intros (Hne & Hhash & Hamp & Hpct & Htab & Hlf & Hcr)%plain_value_parts.
  unfold urllib.parse_qs, urllib.parse_qsl. simpl.
  change ("" +:+ v) with v.
  rewrite (split_absent "&" v Hamp). simpl.
  unfold urllib.parse_field. simpl. rewrite Hne.
  unfold urllib.unquote.
  rewrite contains_percent_replace_plus, Hpct. simpl.
  apply lookup_insert_eq.
Qed.

(** X11.  The [url] of a GET request to [/info?url=v] reaches the
    engine with every plus sign turned into a space, and otherwise
    unchanged, when [v] is not empty and has no [#], [&], [%], tab, line
    feed or carriage return: the engine is called exactly once, with that
    string. *)
Theorem info_url_plus_is_space self w v :
  command self = "GET" ->
  headers_buffer w = [] ->
  path self = "/info?url=" +:+ v ->
  plain_value v = true ->
  exists w',
    handle_one_request self w = (Ok tt, w')
    /\ trace w' = trace w ++
         [EvEngine (PDict [("quiet", PBool true); ("no_warnings", PBool true);
                           ("extract_flat", PBool false)])
                   (Str.replace_char "+" " " v) false;
          EvPrint ("[yt-dlp-server] " +:+ requestline self)].
Proof.
  intros Hc Hb Hpath Hv.
  destruct (extract_info (PDict [("quiet", PBool true); ("no_warnings", PBool true);
                                 ("extract_flat", PBool false)])
                         (Str.replace_char "+" " " v) false (ext w) (fs w))
    as [[r x'] f'] eqn:He.
  edestruct (info_route_run self w) as (w' & Hrun & _ & Htr & _);
    [exact Hc | exact Hb
    | rewrite Hpath; apply urlparse_info_target, Hv
    | reflexivity
    | apply parse_qs_single_url, Hv
    | | exact He | by exists w'].
  intros Hempty.
  apply plain_value_parts in Hv as (Hne & _).
  rewrite <- (nonempty_replace_char "+" " ") in Hne. by rewrite Hempty in Hne.
Qed.

(** ** The local address *)


End Wire.

(** * The handler at work

    The theorems above, applied to concrete requests against the example
    runtime, filesystem and scripted engine. *)

#[local] Existing Instance example_runtime.
#[local] Existing Instance scripted_engine.

Example dumps_health :
  Json.dumps (PDict [("status", PStr "ok"); ("version", PStr "1.0")])
  = "{" +:+ quoted "status" +:+ ": " +:+ quoted "ok" +:+ ", "
    +:+ quoted "version" +:+ ": " +:+ quoted "1.0" +:+ "}".
Proof. reflexivity. Qed.

Example dumps_missing_url :
  Json.dumps (error_body "Missing url parameter")
  = "{" +:+ quoted "error" +:+ ": " +:+ quoted "Missing url parameter" +:+ "}".
Proof. reflexivity. Qed.

Example dumps_missing_path :
  Json.dumps (error_body "Missing path parameter")
  = "{" +:+ quoted "error" +:+ ": " +:+ quoted "Missing path parameter" +:+ "}".
Proof. reflexivity. Qed.

Example dumps_not_found :
  Json.dumps (error_body "Not found")
  = "{" +:+ quoted "error" +:+ ": " +:+ quoted "Not found" +:+ "}".
Proof. reflexivity. Qed.

Example parse_qs_drops_blank :
  urllib.parse_qs "url=&x=1" = {[ "x" := ["1"] ]}.
Proof. vm_compute. reflexivity. Qed.

Example urlparse_origin_form :
  urllib.urlparse "/a/b;c;d?x=1&y=2#f"
  = Ok {| urllib.scheme := ""; urllib.netloc := ""; urllib.path := "/a/b";
          urllib.params := "c;d"; urllib.query := "x=1&y=2";
          urllib.fragment := "f" |}.
Proof. reflexivity. Qed.

Example urlparse_absolute_form :
  urllib.urlparse "  http://host:80/a;p/b?x=1"
  = Ok {| urllib.scheme := "http"; urllib.netloc := "host:80";
          urllib.path := "/a;p/b"; urllib.params := "";
          urllib.query := "x=1"; urllib.fragment := "" |}.
Proof. reflexivity. Qed.

Example urlparse_unmatched_bracket :
  urllib.urlparse "http://h[/a" = Raise (Exn "ValueError" "Invalid IPv6 URL").
Proof. reflexivity. Qed.

Example parse_qs_repeated_and_plus :
  urllib.parse_qs "a=1&b=&c&a=2&&d=x+y"
  = {[ "a" := ["1"; "2"]; "d" := ["x y"] ]}.
Proof. vm_compute. reflexivity. Qed.

Example path_join_cases :
  os.path_join "/tmp/x" "a" = "/tmp/x/a"
  /\ os.path_join "/tmp/x/" "a" = "/tmp/x/a"
  /\ os.path_join "" "a" = "a"
  /\ os.path_join "/tmp" "/a" = "/a".
Proof. repeat split; reflexivity. Qed.

Example error_page_501 :
  length (error_page 501 "Unsupported method ('POST')") = 357%nat.
Proof. vm_compute. reflexivity. Qed.

Lemma no_header_in_body_alone data lines : HeaderBlock lines ∉ [Body data].
Proof. rewrite list_elem_of_singleton. discriminate. Qed.

Lemma health_always_ok_witness :
  urllib.path_of "/health?probe=1" = Some "/health"
  /\ (exists w',
        handle_one_request (get "/health?probe=1") (example_world []) = (Ok tt, w')
        /\ wfile w' =
             [HeaderBlock [StatusLine 200;
                           HeaderLine "Content-Type" "application/json";
                           HeaderLine "Access-Control-Allow-Origin" "*"];
              Body (list_byte_of_string
                      ("{" +:+ quoted "status" +:+ ": " +:+ quoted "ok" +:+ ", "
                       +:+ quoted "version" +:+ ": " +:+ quoted "1.0" +:+ "}"))])
  /\ (exists w',
        handle_one_request (get09 "/health?probe=1") (example_world []) = (Ok tt, w')
        /\ wfile w' =
             [Body (list_byte_of_string
                      ("{" +:+ quoted "status" +:+ ": " +:+ quoted "ok" +:+ ", "
                       +:+ quoted "version" +:+ ": " +:+ quoted "1.0" +:+ "}"))]).
Proof.
  split; [reflexivity|]. split.
  - destruct (health_always_ok (get "/health?probe=1") (example_world [])
                {| urllib.scheme := ""; urllib.netloc := ""; urllib.path := "/health";
                   urllib.params := ""; urllib.query := "probe=1";
                   urllib.fragment := "" |} eq_refl eq_refl eq_refl eq_refl)
      as (w' & Hrun & Hw).
    exists w'. split; [exact Hrun | exact Hw].
  - destruct (health_always_ok (get09 "/health?probe=1") (example_world [])
                {| urllib.scheme := ""; urllib.netloc := ""; urllib.path := "/health";
                   urllib.params := ""; urllib.query := "probe=1";
                   urllib.fragment := "" |} eq_refl eq_refl eq_refl eq_refl)
      as (w' & Hrun & Hw).
    exists w'. split; [exact Hrun | exact Hw].
Defined.

(** C9 as stated fails: a GET request sent as the bare line
    [GET /health] is answered with the body alone; no status 200, no
    status line at all, is sent. *)
Lemma health_http09_has_no_status :
  command (get09 "/health") = "GET"
  /\ urllib.path_of "/health" = Some "/health"
  /\ wfile (handle_one_request (get09 "/health") (example_world [])).2
     = [Body (list_byte_of_string
                ("{" +:+ quoted "status" +:+ ": " +:+ quoted "ok" +:+ ", "
                 +:+ quoted "version" +:+ ": " +:+ quoted "1.0" +:+ "}"))]
  /\ ~ (exists lines,
          HeaderBlock (StatusLine 200 :: lines)
          ∈ wfile (handle_one_request (get09 "/health") (example_world [])).2).
Proof.
  split; [reflexivity|]. split; [reflexivity|].
  assert (Hout : wfile (handle_one_request (get09 "/health") (example_world [])).2
                 = [Body (list_byte_of_string
                            ("{" +:+ quoted "status" +:+ ": " +:+ quoted "ok" +:+ ", "
                             +:+ quoted "version" +:+ ": " +:+ quoted "1.0" +:+ "}"))])
    by (vm_compute; reflexivity).
  split; [exact Hout|]. rewrite Hout. intros (lines & Hin).
  by apply no_header_in_body_alone in Hin.
Qed.

Lemma missing_parameter_400_witness :
  answered_untouched (get "/info") (example_world []) 400
    (error_body "Missing url parameter")
  /\ answered_untouched (get "/download?quality=best") (example_world []) 400
       (error_body "Missing url parameter")
  /\ answered_untouched (get "/file?name=a.m4a") (example_world []) 400
       (error_body "Missing path parameter").
Proof.
  split; [|split].
  - eapply (proj1 (missing_parameter_400 (get "/info") (example_world []) _
                     eq_refl eq_refl eq_refl)); [by left | reflexivity].
  - eapply (proj1 (missing_parameter_400 (get "/download?quality=best")
                     (example_world []) _ eq_refl eq_refl eq_refl));
      [by right | vm_compute; reflexivity].
  - eapply (proj2 (missing_parameter_400 (get "/file?name=a.m4a")
                     (example_world []) _ eq_refl eq_refl eq_refl));
      [reflexivity | vm_compute; reflexivity].
Defined.

(** C6 as stated fails: a GET request sent as the bare line [GET /info]
    carries no [url] and is answered with the error body alone; no status
    400 is sent. *)
Lemma missing_url_http09_has_no_status :
  command (get09 "/info") = "GET"
  /\ urllib.path_of "/info" = Some "/info"
  /\ urllib.parse_qs "" !! "url" = None
  /\ wfile (handle_one_request (get09 "/info") (example_world [])).2
     = [Body (list_byte_of_string
                ("{" +:+ quoted "error" +:+ ": "
                 +:+ quoted "Missing url parameter" +:+ "}"))]
  /\ ~ (exists lines,
          HeaderBlock (StatusLine 400 :: lines)
          ∈ wfile (handle_one_request (get09 "/info") (example_world [])).2).
Proof.
  split; [reflexivity|]. split; [reflexivity|]. split; [reflexivity|].
  assert (Hout : wfile (handle_one_request (get09 "/info") (example_world [])).2
                 = [Body (list_byte_of_string
                            ("{" +:+ quoted "error" +:+ ": "
                             +:+ quoted "Missing url parameter" +:+ "}"))])
    by (vm_compute; reflexivity).
  split; [exact Hout|]. rewrite Hout. intros (lines & Hin).
  by apply no_header_in_body_alone in Hin.
Qed.

Lemma blank_parameter_400_witness :
  answered_untouched (get "/info?url=") (example_world []) 400
    (error_body "Missing url parameter")
  /\ answered_untouched (get "/file?path=&name=a.m4a") (example_world []) 400
       (error_body "Missing path parameter").
Proof.
  split.
  - eapply (proj1 (blank_parameter_400 (get "/info?url=") (example_world []) _
                     eq_refl eq_refl eq_refl)); [by left|].
    intros field n v Hf Hp _.
    change (field ∈ ["url="]) in Hf. apply list_elem_of_singleton in Hf as ->.
    vm_compute in Hp. by injection Hp as _ <-.
  - eapply (proj1 (proj2 (blank_parameter_400 (get "/file?path=&name=a.m4a")
                            (example_world []) _ eq_refl eq_refl eq_refl)));
      [reflexivity|].
    intros field n v Hf Hp Hn.
    change (field ∈ ["path="; "name=a.m4a"]) in Hf.
    rewrite !elem_of_cons in Hf.
    destruct Hf as [-> | [-> | Hf%elem_of_nil]]; [| |done].
    + vm_compute in Hp. by injection Hp as _ <-.
    + vm_compute in Hp. injection Hp as <- _. vm_compute in Hn. discriminate.
Defined.

(** C10 as stated fails: the bare line [GET /info?url=] is treated as
    one without the parameter, but the answer is the error body alone,
    not a 400 response. *)
Lemma blank_url_http09_has_no_status :
  command (get09 "/info?url=") = "GET"
  /\ urllib.path_of "/info?url=" = Some "/info"
  /\ wfile (handle_one_request (get09 "/info?url=") (example_world [])).2
     = [Body (list_byte_of_string
                ("{" +:+ quoted "error" +:+ ": "
                 +:+ quoted "Missing url parameter" +:+ "}"))]
  /\ ~ (exists lines,
          HeaderBlock (StatusLine 400 :: lines)
          ∈ wfile (handle_one_request (get09 "/info?url=") (example_world [])).2).
Proof.
  split; [reflexivity|]. split; [reflexivity|].
  assert (Hout : wfile (handle_one_request (get09 "/info?url=") (example_world [])).2
                 = [Body (list_byte_of_string
                            ("{" +:+ quoted "error" +:+ ": "
                             +:+ quoted "Missing url parameter" +:+ "}"))])
    by (vm_compute; reflexivity).
  split; [exact Hout|]. rewrite Hout. intros (lines & Hin).
  by apply no_header_in_body_alone in Hin.
Qed.

Lemma unknown_path_by_method_witness :
  answered_untouched (get "/foo") (example_world []) 404 (error_body "Not found")
  /\ (exists w',
        handle_one_request (options "/foo") (example_world []) = (Ok tt, w')
        /\ wfile w' =
             [HeaderBlock [StatusLine 200;
                           HeaderLine "Access-Control-Allow-Origin" "*";
                           HeaderLine "Access-Control-Allow-Methods" "GET, POST, OPTIONS";
                           HeaderLine "Access-Control-Allow-Headers" "Content-Type"]])
  /\ (exists w' lines rest,
        handle_one_request (post "/foo") (example_world []) = (Ok tt, w')
        /\ wfile w' = HeaderBlock (StatusLine 501 :: lines) :: rest
        /\ Forall (fun c => exists data, c = Body data) rest).
Proof.
  split; [|split].
  - eapply (proj1 (unknown_path_by_method (get "/foo") (example_world []) eq_refl));
      [reflexivity | reflexivity |].
    simpl. rewrite !not_elem_of_cons. repeat split; try discriminate.
    apply not_elem_of_nil.
  - apply (proj1 (proj2 (unknown_path_by_method (options "/foo")
                           (example_world []) eq_refl))).
    reflexivity.
  - apply (proj2 (proj2 (unknown_path_by_method (post "/foo") (example_world [])
                           eq_refl))); discriminate.
Defined.

(** C7 as stated fails: a POST request to an unknown path is answered
    501 by the base class, with its HTML page, not 404
    [{"error": "Not found"}]. *)
Lemma post_unknown_path_is_501 :
  urllib.path_of "/foo" = Some "/foo"
  /\ ("/foo" ∉ ["/health"; "/info"; "/download"; "/file"])
  /\ (command (post "/foo") ≠ "OPTIONS")
  /\ (exists lines page,
        wfile (handle_one_request (post "/foo") (example_world [])).2
        = [HeaderBlock (StatusLine 501 :: lines); Body page]
        /\ HeaderLine "Content-Type" "text/html;charset=utf-8" ∈ lines)
  /\ ~ (exists lines,
          HeaderBlock (StatusLine 404 :: lines)
          ∈ wfile (handle_one_request (post "/foo") (example_world [])).2)
  /\ (Body (Json.dumps_bytes (error_body "Not found"))
      ∉ wfile (handle_one_request (post "/foo") (example_world [])).2).
Proof.
  split; [reflexivity|]. split.
  { rewrite !not_elem_of_cons. repeat split; try discriminate. apply not_elem_of_nil. }
  split; [discriminate|].
  remember (wfile (handle_one_request (post "/foo") (example_world [])).2)
    as out eqn:Hout.
  vm_compute in Hout. subst out.
  split; [|split].
  - eexists. eexists. split; [reflexivity|]. repeat constructor.
  - intros (lines & Hin). rewrite !elem_of_cons in Hin.
    destruct Hin as [Hin|[Hin|Hin%elem_of_nil]];
      [discriminate Hin | discriminate Hin | done].
  - rewrite !not_elem_of_cons. split; [discriminate|].
    split; [|apply not_elem_of_nil]. vm_compute. discriminate.
Qed.

Lemma file_round_trip_witness :
  os.stat example_fs "/music/a.m4a" = Some (File [x49; x44; x33] true)
  /\ exists w',
       handle_one_request (get "/file?path=/music/a.m4a") (example_world [])
       = (Ok tt, w')
       /\ wfile w' =
            [HeaderBlock [StatusLine 200;
                          HeaderLine "Content-Type" "application/octet-stream";
                          HeaderLine "Content-Length" "3";
                          HeaderLine "Access-Control-Allow-Origin" "*"];
             Body [x49; x44; x33]]
       /\ fs w' = fs (example_world []).
Proof.
  split; [reflexivity|].
  destruct (file_round_trip (get "/file?path=/music/a.m4a") (example_world [])
              {| urllib.scheme := ""; urllib.netloc := ""; urllib.path := "/file";
                 urllib.params := ""; urllib.query := "path=/music/a.m4a";
                 urllib.fragment := "" |}
              "/music/a.m4a" [] [x49; x44; x33]
              eq_refl eq_refl eq_refl eq_refl eq_refl eq_refl)
    as (w' & Hrun & Hw & Hfs).
  exists w'. split; [exact Hrun|]. split; [exact Hw | exact Hfs].
Defined.

(** C5 as stated fails: the bare line [GET /file?path=/music/a.m4a] is
    answered with the bytes of the file alone; no status 200, no
    [Content-Type] and no [Content-Length] are sent. *)
Lemma file_http09_has_no_headers :
  command (get09 "/file?path=/music/a.m4a") = "GET"
  /\ os.stat example_fs "/music/a.m4a" = Some (File [x49; x44; x33] true)
  /\ wfile (handle_one_request (get09 "/file?path=/music/a.m4a") (example_world [])).2
     = [Body [x49; x44; x33]]
  /\ ~ (exists lines,
          HeaderBlock lines
          ∈ wfile (handle_one_request (get09 "/file?path=/music/a.m4a")
                     (example_world [])).2).
Proof.
  split; [reflexivity|]. split; [reflexivity|].
  assert (Hout : wfile (handle_one_request (get09 "/file?path=/music/a.m4a")
                          (example_world [])).2
                 = [Body [x49; x44; x33]])
    by (vm_compute; reflexivity).
  split; [exact Hout|]. rewrite Hout. intros (lines & Hin).
  by apply no_header_in_body_alone in Hin.
Qed.



Lemma video_info_fields_witness :
  exists record w',
    get_video_info "https://example.test/v" (example_world [(Ok example_info, id)])
    = (Ok record, w')
    /\ dict_keys record = ["title"; "author"; "duration"; "thumbnail"; "id"]
    /\ record = PDict [("title", PStr "Song");
                       ("author", PStr "Unknown");
                       ("duration", PInt 0);
                       ("thumbnail", PStr "");
                       ("id", PStr "xyz")].
Proof.
  apply (video_info_fields "https://example.test/v"
           (example_world [(Ok example_info, id)]) example_info [] example_fs).
  reflexivity.
Defined.

(** C4 as stated fails: the record has no [durationSeconds] and no
    [thumbnailUrl] field; its keys are [duration] and [thumbnail]. *)
Lemma video_info_keys_not_as_specified :
  exists record w',
    get_video_info "https://example.test/v" (example_world [(Ok example_info, id)])
    = (Ok record, w')
    /\ ("durationSeconds" ∉ dict_keys record)
    /\ ("thumbnailUrl" ∉ dict_keys record)
    /\ dict_keys record ≠ ["title"; "author"; "durationSeconds"; "thumbnailUrl"; "id"].
Proof.
  eexists. eexists. split; [vm_compute; reflexivity|].
  simpl. rewrite !not_elem_of_cons.
  repeat split; try discriminate; apply not_elem_of_nil.
Qed.

Lemma fallback_download_succeeds_witness :
  exists w',
    download_audio "https://example.test/v"
      (example_world
         [(Raise (Exn "DownloadError" "ERROR: ffmpeg not found"), id);
          (Ok example_info, write_file "/tmp/ytdlp_abc12345" "Song.webm" [x01; x02])])
    = (Ok (PDict [("success", PBool true);
                  ("title", PStr "Song");
                  ("filepath", PStr "/tmp/ytdlp_abc12345/Song.webm");
                  ("size", PInt 2)]),
       w')
    /\ engine_calls (trace w')
       = [(ydl_opts "/tmp/ytdlp_abc12345/%(title)s.%(ext)s",
           "https://example.test/v", true);
          (ydl_opts_simple "/tmp/ytdlp_abc12345/%(title)s.%(ext)s",
           "https://example.test/v", true)].
Proof.
  edestruct (fallback_download_succeeds "https://example.test/v"
               (example_world
                  [(Raise (Exn "DownloadError" "ERROR: ffmpeg not found"), id);
                   (Ok example_info,
                    write_file "/tmp/ytdlp_abc12345" "Song.webm" [x01; x02])])
               "/tmp/ytdlp_abc12345")
    as (w' & Hrun & Hcalls & _).
  - reflexivity.
  - reflexivity.
  - reflexivity.
  - reflexivity.
  - reflexivity.
  - reflexivity.
  - reflexivity.
  - exists w'. split; [exact Hrun | exact Hcalls].
Defined.

Lemma no_file_soft_error_witness :
  exists w',
    handle_one_request (get "/download?url=abc")
      (example_world [(Ok example_info, id)]) = (Ok tt, w')
    /\ wfile w' =
         [HeaderBlock [StatusLine 200;
                       HeaderLine "Content-Type" "application/json";
                       HeaderLine "Access-Control-Allow-Origin" "*"];
          Body (list_byte_of_string
                  ("{" +:+ quoted "error" +:+ ": "
                   +:+ quoted "Download completed but file not found" +:+ "}"))].
Proof.
  edestruct (no_file_soft_error (get "/download?url=abc")
               (example_world [(Ok example_info, id)])
               {| urllib.scheme := ""; urllib.netloc := ""; urllib.path := "/download";
                  urllib.params := ""; urllib.query := "url=abc";
                  urllib.fragment := "" |}
               "abc" [] "/tmp/ytdlp_abc12345")
    as [_ (w' & Hrun & Hw)].
  - reflexivity.
  - reflexivity.
  - reflexivity.
  - reflexivity.
  - reflexivity.
  - discriminate.
  - reflexivity.
  - left. exists example_info, [], example_fs_with_dir, [].
    split; [reflexivity|]. split; reflexivity.
  - exists w'. split; [exact Hrun | exact Hw].
Defined.

(** C2 as stated fails: when the request is the bare line
    [GET /download?url=abc], the soft error goes out as a body alone; no
    status 200 is sent. *)
Lemma no_file_http09_has_no_status :
  command (get09 "/download?url=abc") = "GET"
  /\ (download_audio "abc" (example_world [(Ok example_info, id)])).1
     = Ok (error_body "Download completed but file not found")
  /\ wfile (handle_one_request (get09 "/download?url=abc")
              (example_world [(Ok example_info, id)])).2
     = [Body (list_byte_of_string
                ("{" +:+ quoted "error" +:+ ": "
                 +:+ quoted "Download completed but file not found" +:+ "}"))]
  /\ ~ (exists lines,
          HeaderBlock (StatusLine 200 :: lines)
          ∈ wfile (handle_one_request (get09 "/download?url=abc")
                     (example_world [(Ok example_info, id)])).2).
Proof.
  split; [reflexivity|]. split; [vm_compute; reflexivity|].
  assert (Hout : wfile (handle_one_request (get09 "/download?url=abc")
                          (example_world [(Ok example_info, id)])).2
                 = [Body (list_byte_of_string
                            ("{" +:+ quoted "error" +:+ ": "
                             +:+ quoted "Download completed but file not found"
                             +:+ "}"))])
    by (vm_compute; reflexivity).
  split; [exact Hout|]. rewrite Hout. intros (lines & Hin).
  by apply no_header_in_body_alone in Hin.
Qed.

Lemma both_attempts_fail_witness :
  exists w',
    handle_one_request (get "/download?url=abc")
      (example_world
         [(Raise (Exn "DownloadError" "ERROR: ffmpeg not found"), id);
          (Raise (Exn "DownloadError" "ERROR: Unsupported URL: abc"), id)])
    = (Ok tt, w')
    /\ wfile w' = json_response 500 (PDict [("error", PStr "ERROR: Unsupported URL: abc")])
    /\ engine_calls (trace w')
       = [(ydl_opts "/tmp/ytdlp_abc12345/%(title)s.%(ext)s", "abc", true);
          (ydl_opts_simple "/tmp/ytdlp_abc12345/%(title)s.%(ext)s", "abc", true)].
Proof.
  edestruct (both_attempts_fail (get "/download?url=abc")
               (example_world
                  [(Raise (Exn "DownloadError" "ERROR: ffmpeg not found"), id);
                   (Raise (Exn "DownloadError" "ERROR: Unsupported URL: abc"), id)])
               {| urllib.scheme := ""; urllib.netloc := ""; urllib.path := "/download";
                  urllib.params := ""; urllib.query := "url=abc";
                  urllib.fragment := "" |}
               "abc" [] "/tmp/ytdlp_abc12345")
    as [_ (w' & Hrun & Hw & Hcalls)].
  - reflexivity.
  - reflexivity.
  - reflexivity.
  - reflexivity.
  - reflexivity.
  - discriminate.
  - reflexivity.
  - reflexivity.
  - reflexivity.
  - exists w'. split; [exact Hrun|]. split; [exact Hw | exact Hcalls].
Defined.

(** C3 as stated fails: when the request is the bare line
    [GET /download?url=abc] and both attempts raise, the error goes out
    as a body alone; no status 500 is sent. *)
Lemma both_fail_http09_has_no_status :
  command (get09 "/download?url=abc") = "GET"
  /\ (download_audio "abc"
        (example_world
           [(Raise (Exn "DownloadError" "ERROR: ffmpeg not found"), id);
            (Raise (Exn "DownloadError" "ERROR: Unsupported URL: abc"), id)])).1
     = Raise (Exn "DownloadError" "ERROR: Unsupported URL: abc")
  /\ wfile (handle_one_request (get09 "/download?url=abc")
              (example_world
                 [(Raise (Exn "DownloadError" "ERROR: ffmpeg not found"), id);
                  (Raise (Exn "DownloadError" "ERROR: Unsupported URL: abc"), id)])).2
     = [Body (Json.dumps_bytes (error_body "ERROR: Unsupported URL: abc"))]
  /\ ~ (exists lines,
          HeaderBlock (StatusLine 500 :: lines)
          ∈ wfile (handle_one_request (get09 "/download?url=abc")
                     (example_world
                        [(Raise (Exn "DownloadError" "ERROR: ffmpeg not found"), id);
                         (Raise (Exn "DownloadError" "ERROR: Unsupported URL: abc"),
                          id)])).2).
Proof.
  split; [reflexivity|]. split; [vm_compute; reflexivity|].
  assert (Hout : wfile (handle_one_request (get09 "/download?url=abc")
                          (example_world
                             [(Raise (Exn "DownloadError" "ERROR: ffmpeg not found"), id);
                              (Raise (Exn "DownloadError" "ERROR: Unsupported URL: abc"),
                               id)])).2
                 = [Body (Json.dumps_bytes (error_body "ERROR: Unsupported URL: abc"))])
    by (vm_compute; reflexivity).
  split; [exact Hout|]. rewrite Hout. intros (lines & Hin).
  by apply no_header_in_body_alone in Hin.
Qed.

(** ** Further runs *)

Lemma scan_stops_at_first_file_witness :
  first_file "/d" ["sub"; "a.m4a"; "b.jpg"]
    (mkWorld example_fs_listing ([] : list step) [] [] [] [])
  = (Ok (Some "/d/a.m4a"),
     mkWorld example_fs_listing [] []
       [EvFs OpIsfile "/d/sub"; EvFs OpIsfile "/d/a.m4a"] [] []).
Proof.
  apply (scan_stops_at_first_file "/d" ["sub"] "a.m4a" ["b.jpg"]
           (mkWorld example_fs_listing ([] : list step) [] [] [] [])).
  - repeat constructor.
  - reflexivity.
Defined.

Lemma file_missing_404_witness :
  exists w',
    handle_one_request (get "/file?path=/music/none.m4a") (example_world [])
    = (Ok tt, w')
    /\ wfile w' = json_response 404 (error_body "File not found")
    /\ fs_accesses (trace w') = [(OpExists, "/music/none.m4a")].
Proof.
  edestruct (file_missing_404 (get "/file?path=/music/none.m4a") (example_world [])
               {| urllib.scheme := ""; urllib.netloc := ""; urllib.path := "/file";
                  urllib.params := ""; urllib.query := "path=/music/none.m4a";
                  urllib.fragment := "" |}
               "/music/none.m4a" [])
    as (w' & Hrun & Hw & Hfs & _).
  - reflexivity.
  - reflexivity.
  - reflexivity.
  - reflexivity.
  - reflexivity.
  - discriminate.
  - reflexivity.
  - exists w'. split; [exact Hrun|]. split; [exact Hw | exact Hfs].
Defined.


Lemma info_route_mirrors_engine_witness :
  exists w',
    handle_one_request (get "/info?url=abc") (example_world [(Ok example_info, id)])
    = (Ok tt, w')
    /\ wfile w' =
         json_response 200
           (PDict [("title", PStr "Song"); ("author", PStr "Unknown");
                   ("duration", PInt 0); ("thumbnail", PStr "");
                   ("id", PStr "xyz")])
    /\ engine_calls (trace w')
       = [(PDict [("quiet", PBool true); ("no_warnings", PBool true);
                  ("extract_flat", PBool false)], "abc", false)].
Proof.
  edestruct (info_route_mirrors_engine (get "/info?url=abc")
               (example_world [(Ok example_info, id)])
               {| urllib.scheme := ""; urllib.netloc := ""; urllib.path := "/info";
                  urllib.params := ""; urllib.query := "url=abc";
                  urllib.fragment := "" |}
               "abc" [] (Ok example_info) [] example_fs)
    as (w' & Hrun & Hw & Htr & _).
  - reflexivity.
  - reflexivity.
  - reflexivity.
  - reflexivity.
  - reflexivity.
  - discriminate.
  - reflexivity.
  - exists w'. split; [exact Hrun|]. split; [exact Hw|]. rewrite Htr. reflexivity.
Defined.

Lemma primary_download_succeeds_witness :
  exists w',
    download_audio "https://example.test/v"
      (example_world
         [(Ok example_info,
           write_file "/tmp/ytdlp_abc12345" "Song.m4a" [x01; x02; x03])])
    = (Ok (PDict [("success", PBool true);
                  ("title", PStr "Song");
                  ("filepath", PStr "/tmp/ytdlp_abc12345/Song.m4a");
                  ("size", PInt 3)]),
       w')
    /\ engine_calls (trace w')
       = [(ydl_opts "/tmp/ytdlp_abc12345/%(title)s.%(ext)s",
           "https://example.test/v", true)].
Proof.
  edestruct (primary_download_succeeds "https://example.test/v"
               (example_world
                  [(Ok example_info,
                    write_file "/tmp/ytdlp_abc12345" "Song.m4a" [x01; x02; x03])])
               "/tmp/ytdlp_abc12345")
    as (w' & Hrun & Hcalls & _).
  - reflexivity.
  - reflexivity.
  - reflexivity.
  - reflexivity.
  - reflexivity.
  - exists w'. split; [exact Hrun | exact Hcalls].
Defined.

Lemma scan_failure_triggers_fallback_witness :
  engine_calls
    (trace (download_audio "https://example.test/v"
              (example_world
                 [(Ok example_info, delete "/tmp/ytdlp_abc12345");
                  (Raise (Exn "DownloadError" "ERROR: Unsupported URL"), id)])).2)
  = [(ydl_opts "/tmp/ytdlp_abc12345/%(title)s.%(ext)s", "https://example.test/v", true);
     (ydl_opts_simple "/tmp/ytdlp_abc12345/%(title)s.%(ext)s",
      "https://example.test/v", true)].
Proof.
  edestruct (scan_failure_triggers_fallback "https://example.test/v"
               (example_world
                  [(Ok example_info, delete "/tmp/ytdlp_abc12345");
                   (Raise (Exn "DownloadError" "ERROR: Unsupported URL"), id)])
               "/tmp/ytdlp_abc12345")
    as (Hcalls & _).
  - reflexivity.
  - reflexivity.
  - intros entries. vm_compute. discriminate.
  - reflexivity.
  - exact Hcalls.
Defined.

Lemma mkdtemp_failure_500_witness :
  exists w',
    handle_one_request (get "/download?url=abc")
      (mkWorld example_fs_no_tmp ([] : list step) ["abc12345"] [] [] []) = (Ok tt, w')
    /\ wfile w' =
         json_response 500 (error_body (exn_str (os.enoent "/tmp/ytdlp_abc12345")))
    /\ engine_calls (trace w') = []
    /\ fs w' = example_fs_no_tmp.
Proof.
  edestruct (mkdtemp_failure_500 (get "/download?url=abc")
               (mkWorld example_fs_no_tmp ([] : list step) ["abc12345"] [] [] [])
               {| urllib.scheme := ""; urllib.netloc := ""; urllib.path := "/download";
                  urllib.params := ""; urllib.query := "url=abc";
                  urllib.fragment := "" |}
               "abc" [])
    as (_ & _ & w' & Hrun & Hw & Hcalls).
  - reflexivity.
  - reflexivity.
  - reflexivity.
  - reflexivity.
  - reflexivity.
  - discriminate.
  - reflexivity.
  - exists w'. split; [exact Hrun|]. split; [exact Hw|]. split; [exact Hcalls|].
    revert Hrun. vm_compute. by intros [= <-].
Defined.

Lemma download_never_cleans_up_witness :
  fs (download_audio (YDL:=offline_engine) "https://example.test/v"
        (mkWorld example_fs tt ["abc12345"] [] [] [])).2
  !! "/tmp/ytdlp_abc12345" = Some (Dir []).
Proof.
  eapply (proj2 (download_never_cleans_up (YDL:=offline_engine)
                   "https://example.test/v"
                   (mkWorld example_fs tt ["abc12345"] [] [] [])
                   (fun _ _ _ _ _ => eq_refl))).
  reflexivity.
Defined.


Lemma info_url_plus_is_space_witness :
  exists w',
    handle_one_request (get "/info?url=never+gonna") (example_world []) = (Ok tt, w')
    /\ engine_calls (trace w')
       = [(PDict [("quiet", PBool true); ("no_warnings", PBool true);
                  ("extract_flat", PBool false)], "never gonna", false)].
Proof.
  destruct (info_url_plus_is_space (get "/info?url=never+gonna") (example_world [])
              "never+gonna" eq_refl eq_refl eq_refl eq_refl)
    as (w' & Hrun & Htr).
  exists w'. split; [exact Hrun|]. rewrite Htr. reflexivity.
Defined.


Lemma no_file_no_retry_witness :
  exists w',
    download_audio "https://example.test/v" (example_world [(Ok example_info, id)])
    = (Ok (error_body "Download completed but file not found"), w')
    /\ engine_calls (trace w')
       = [(ydl_opts "/tmp/ytdlp_abc12345/%(title)s.%(ext)s",
           "https://example.test/v", true)].
Proof.
  edestruct (no_file_no_retry "https://example.test/v"
               (example_world [(Ok example_info, id)]) "/tmp/ytdlp_abc12345")
    as (w' & Hrun & Hcalls & _).
  - reflexivity.
  - reflexivity.
  - reflexivity.
  - reflexivity.
  - exists w'. split; [exact Hrun | exact Hcalls].
Defined.
